(** * Host telemetry aggregation of the syspanel hosts dashboard

    A shallow embedding of [horizon/dashboards/syspanel/hosts/views.py]:
    the per-host dictionaries ([_get_host_dict], [_get_host_cpu_dict],
    [_get_host_mem_dict], [_get_host_part_dict], [_get_host_net_dict]) and
    the fleet loop of [HostsView.get_data], followed by the properties the
    specification states about them.

    Conventions of the embedding.
    - The monitoring client ([horizon.api.monitoring.monitorclient]) is an
      external collaborator: it is a record of functions, each of which
      either returns a value or raises.
    - Python exceptions are explicit: every function that can raise returns
      a [result].
    - Python numbers that are not known to be integers (loads, percentages,
      byte counts, bandwidths) are exact rationals [Q]; [float(x)] is the
      identity and [int(x)] truncates toward zero.  Rounding error of the
      binary64 arithmetic is therefore not part of the model: the value the
      model gives to [int((tused/tband)*100)] is the program's value only
      where no operation rounds (the program returns 56 for one interface
      with bandwidth 100 and used% 57).  The concrete inputs used below are
      chosen so that the binary64 evaluation gives the same integers, and a
      theorem about that value for arbitrary inputs carries the exactness of
      every operation as a hypothesis ([dyadic_stats]).
    - The dictionaries the views build field by field are records with one
      field per key. *)

From Stdlib Require Import ZArith QArith Qround String List OrderedTypeEx Lia Lqa.
From stdpp Require Import base option list sorting gmap strings.

Local Open Scope string_scope.
Local Open Scope list_scope.
Local Open Scope Z_scope.

(** ** Exceptions and results *)

Inductive exn : Type :=
| ZeroDivisionError
| UnboundLocalError (var : string)
| ClientError (msg : string).

Inductive result (A : Type) : Type :=
| Ok (a : A)
| Raise (e : exn).

Arguments Ok {A} a.
Arguments Raise {A} e.

#[global] Instance result_ret : MRet result := fun _ a => Ok a.
#[global] Instance result_bind : MBind result := fun _ _ f m =>
  match m with
  | Ok a => f a
  | Raise e => Raise e
  end.

Definition succeeds {A} (r : result A) : Prop := exists a, r = Ok a.
Definition raises {A} (r : result A) : Prop := exists e, r = Raise e.

(** ** Python numbers *)

(** [x > y] on numbers. *)
Definition gtb (x y : Q) : bool := negb (Qle_bool x y).

(** [int(x)]: truncation toward zero. *)
Definition py_int (x : Q) : Z := Z.quot (Qnum x) (Z.pos (Qden x)).

(** [x / y] where [x] is a float: raises on a zero divisor. *)
Definition py_div (x y : Q) : result Q :=
  if Qeq_bool y 0 then Raise ZeroDivisionError else Ok (x / y)%Q.

(** ** The monitoring client *)

Record partition_stats := { ps_total : Q; ps_used : Q }.

Record interface_stats :=
  { is_bandwidth : Q; is_rx : Q; is_tx : Q; is_used : Q }.

Record MonitorClient := {
  get_overall_state : string -> result Z;
  get_errors : string -> result (list string);
  get_warnings : string -> result (list string);
  get_notices : string -> result (list string);
  get_cpu_load : string -> result Q;
  get_cpu_cores : string -> result Z;
  get_cpu_speed : string -> result Q;
  get_total_memory : string -> result Q;
  get_mem_usage : string -> result Q;
  get_monitored_partitions : string -> result (list string);
  get_partition_stats : string -> string -> result partition_stats;
  get_monitored_interfaces : string -> result (list string);
  get_interface_stats : string -> string -> result interface_stats
}.

(** ** [_get_host_dict] *)

Record host_gen_dict := {
  hg_name : string;
  hg_state : Z;
  hg_class : string;
  hg_errors : list string;
  hg_warnings : list string;
  hg_notices : list string
}.

Definition _get_host_dict (mc : MonitorClient) (host : string)
  : result host_gen_dict :=
  state ← get_overall_state mc host;
  let class :=
    if state =? 1 then "host_ok"
    else if state =? 0 then "host_warn"
    else "host_error" in
  errors ← get_errors mc host;
  warnings ← get_warnings mc host;
  notices ← get_notices mc host;
  mret {| hg_name := host; hg_state := state; hg_class := class;
          hg_errors := errors; hg_warnings := warnings;
          hg_notices := notices |}.

(** ** [_get_host_cpu_dict] *)

Record host_cpu_dict := {
  hc_cpu_load : Q;
  hc_cores : Z;
  hc_cpu_speed : Q;
  hc_cpu_class : string
}.

Definition _get_host_cpu_dict (mc : MonitorClient) (host : string)
  : result host_cpu_dict :=
  cpu_load ← get_cpu_load mc host;
  cores ← get_cpu_cores mc host;
  cpu_speed ← get_cpu_speed mc host;
  let cpu_class :=
    if gtb cpu_load 90 then "progress-danger"
    else if gtb cpu_load 60 then "progress-warning"
    else "progress-success" in
  mret {| hc_cpu_load := cpu_load; hc_cores := cores;
          hc_cpu_speed := cpu_speed; hc_cpu_class := cpu_class |}.

(** ** [_get_host_mem_dict] *)

Record host_mem_dict := {
  hm_total_mem : Q;
  hm_mem_usage : Q;
  hm_mem_used : Q;
  hm_mem_class : string
}.

Definition _get_host_mem_dict (mc : MonitorClient) (host : string)
  : result host_mem_dict :=
  total_mem ← get_total_memory mc host;
  mem_usage ← get_mem_usage mc host;
  let mem_used := ((mem_usage / 100) * total_mem)%Q in
  let mem_class :=
    if gtb mem_usage 90 then "progress-danger"
    else if gtb mem_usage 60 then "progress-warning"
    else "progress-success" in
  mret {| hm_total_mem := total_mem; hm_mem_usage := mem_usage;
          hm_mem_used := mem_used; hm_mem_class := mem_class |}.

(** ** [_get_host_part_dict] *)

Record part_entry := {
  pe_name : string;
  pe_total : Q;
  pe_used : Q
}.

(** The returned dictionary is the [part_dict] of the last loop iteration
    with the key ['parts'] added.  (In Python that dictionary is also the
    last element of its own ['parts'] list; the list is recorded here with
    the three keys each element had when it was appended.) *)
Record host_part_dict := {
  hp_name : string;
  hp_total : Q;
  hp_used : Q;
  hp_parts : list part_entry
}.

(** The loop [for part in parts].  The local variable [part_dict] is bound
    by the first statement of the loop body, so it is [None] until the body
    has run once. *)
Fixpoint part_loop (mc : MonitorClient) (host : string) (parts : list string)
    (parts_ret : list part_entry) (part_dict : option part_entry)
  : result (list part_entry * option part_entry) :=
  match parts with
  | [] => mret (parts_ret, part_dict)
  | part :: parts' =>
      stats ← get_partition_stats mc host part;
      let part_dict := {| pe_name := part; pe_total := ps_total stats;
                          pe_used := ps_used stats |} in
      part_loop mc host parts' (parts_ret ++ [part_dict]) (Some part_dict)
  end.

Definition _get_host_part_dict (mc : MonitorClient) (host : string)
  : result host_part_dict :=
  parts ← get_monitored_partitions mc host;
  '(parts_ret, part_dict) ← part_loop mc host parts [] None;
  match part_dict with
  | None => Raise (UnboundLocalError "part_dict")
  | Some d =>
      mret {| hp_name := pe_name d; hp_total := pe_total d;
              hp_used := pe_used d; hp_parts := parts_ret |}
  end.

(** ** [_get_host_net_dict] *)

Record int_dict := {
  id_name : string;
  id_bandwidth : Q;
  id_rx : Q;
  id_tx : Q;
  id_used : Q;
  id_class : string
}.

Record total_dict := {
  td_bandwidth : Q;
  td_tx : Q;
  td_rx : Q;
  td_used : Z;
  td_class : string
}.

(** An element of [net_ret]: a per-interface dictionary or the dictionary
    of totals appended after the loop. *)
Inductive net_row : Type :=
| IfaceRow (d : int_dict)
| TotalRow (d : total_dict).

(** The variables the loop [for interface in ints] updates.  [tused] is an
    integer at every loop boundary: it starts as [0] and each iteration
    ends by assigning [int(...)] to it. *)
Record net_state := {
  net_ret : list net_row;
  tband : Q;
  ttx : Q;
  trx : Q;
  tused : Z;
  tclass : string
}.

Definition net_init : net_state :=
  {| net_ret := []; tband := 0; ttx := 0; trx := 0; tused := 0;
     tclass := "" |}.

(** [iface == None or iface == interface] *)
Definition iface_selected (iface : option string) (interface : string) : bool :=
  match iface with
  | None => true
  | Some i => String.eqb i interface
  end.

(** [iface == None or iface == 'All'] *)
Definition total_requested (iface : option string) : bool :=
  match iface with
  | None => true
  | Some i => String.eqb i "All"
  end.

(** The dictionary [int_dict] built for one interface (lines 102-121). *)
Definition int_dict_of (interface : string) (int_det : interface_stats)
  : int_dict :=
  {| id_name := interface; id_bandwidth := is_bandwidth int_det;
     id_rx := is_rx int_det; id_tx := is_tx int_det;
     id_used := is_used int_det;
     id_class :=
       if gtb (is_used int_det) 90 then "progress-danger"
       else if gtb (is_used int_det) 60 then "progress-warning"
       else "progress-success" |}.

(** One iteration of the loop body (lines 102-133). *)
Definition net_body (mc : MonitorClient) (host : string)
    (iface : option string) (st : net_state) (interface : string)
  : result net_state :=
  int_det ← get_interface_stats mc host interface;
  let tband := (tband st + is_bandwidth int_det)%Q in
  let trx := (trx st + is_rx int_det)%Q in
  let ttx := (ttx st + is_tx int_det)%Q in
  let tused :=
    (inject_Z (tused st)
     + (is_used int_det / 100) * is_bandwidth int_det)%Q in
  let int_dict := int_dict_of interface int_det in
  let net_ret :=
    if iface_selected iface interface
    then net_ret st ++ [IfaceRow int_dict]
    else net_ret st in
  ratio ← py_div tused tband;
  let tused := py_int (ratio * 100)%Q in
  let tclass :=
    if tused >? 90 then "progress-danger"
    else if tused >? 60 then "progress-warning"
    else "progress-success" in
  mret {| net_ret := net_ret; tband := tband; ttx := ttx; trx := trx;
          tused := tused; tclass := tclass |}.

Fixpoint net_loop (mc : MonitorClient) (host : string)
    (iface : option string) (ints : list string) (st : net_state)
  : result net_state :=
  match ints with
  | [] => mret st
  | interface :: ints' =>
      st' ← net_body mc host iface st interface;
      net_loop mc host iface ints' st'
  end.

Definition _get_host_net_dict (mc : MonitorClient) (host : string)
    (iface : option string) : result (list net_row) :=
  ints ← get_monitored_interfaces mc host;
  st ← net_loop mc host iface ints net_init;
  mret (if total_requested iface
        then net_ret st ++
             [TotalRow {| td_bandwidth := tband st; td_tx := ttx st;
                          td_rx := trx st; td_used := tused st;
                          td_class := tclass st |}]
        else net_ret st).

(** ** [HostsView.get_data] *)

(** The dictionary built by
    [dict(host_gen_dict.items() + host_cpu_dict.items() + host_mem_dict.items())];
    the three key sets are disjoint. *)
Record host_dict := {
  name : string;
  state : Z;
  class : string;
  errors : list string;
  warnings : list string;
  notices : list string;
  cpu_load : Q;
  cores : Z;
  cpu_speed : Q;
  cpu_class : string;
  total_mem : Q;
  mem_usage : Q;
  mem_used : Q;
  mem_class : string
}.

Definition merge_dicts (g : host_gen_dict) (c : host_cpu_dict)
    (m : host_mem_dict) : host_dict :=
  {| name := hg_name g; state := hg_state g; class := hg_class g;
     errors := hg_errors g; warnings := hg_warnings g;
     notices := hg_notices g;
     cpu_load := hc_cpu_load c; cores := hc_cores c;
     cpu_speed := hc_cpu_speed c; cpu_class := hc_cpu_class c;
     total_mem := hm_total_mem m; mem_usage := hm_mem_usage m;
     mem_used := hm_mem_used m; mem_class := hm_mem_class m |}.

(** The body of the loop over the hosts (lines 170-175). *)
Definition host_entry (mc : MonitorClient) (host : string)
  : result host_dict :=
  host_gen_dict ← _get_host_dict mc host;
  host_cpu_dict ← _get_host_cpu_dict mc host;
  host_mem_dict ← _get_host_mem_dict mc host;
  mret (merge_dicts host_gen_dict host_cpu_dict host_mem_dict).

(** Lexicographic order on strings, the order of Python's [sorted] on
    [str] keys. *)
Definition str_le (a b : string) : Prop := String.leb a b = true.

#[global] Instance str_le_dec : RelDecision str_le :=
  fun a b => decide (String.leb a b = true).

(** [sorted(host_list.keys())]: the keys of a dictionary are distinct, so
    the result does not depend on the sorting algorithm. *)
Definition sorted_keys (host_list : gmap string Z) : list string :=
  merge_sort str_le (map_to_list host_list).*1.

Fixpoint hosts_loop (mc : MonitorClient) (keys : list string)
    (hosts : list host_dict) : result (list host_dict) :=
  match keys with
  | [] => mret hosts
  | host :: keys' =>
      host_dict ← host_entry mc host;
      hosts_loop mc keys' (hosts ++ [host_dict])
  end.

(** Lines 151 and 169-178: the loop over [sorted(host_list.keys())], as a
    function of the dictionary [host_list] it ranges over. *)
Definition aggregate_hosts (mc : MonitorClient) (host_list : gmap string Z)
  : result (list host_dict) :=
  hosts_loop mc (sorted_keys host_list) [].

Record service := { service_host : string }.

(** The literal dictionary assigned to [host_list] at lines 157-167. *)
Definition literal_host_list : gmap string Z :=
  list_to_map
    [("64.102.251.71", 1); ("64.102.251.72", 1); ("64.102.251.73", 1);
     ("64.102.251.74", 1); ("64.102.251.75", 1); ("64.102.251.76", 1);
     ("64.102.251.77", 1); ("64.102.251.78", 1); ("64.102.251.79", 1)].

(** [get_data]: the dictionary filled from the service catalog is replaced
    by the literal one before the loop runs. *)
Definition get_data (mc : MonitorClient) (service_catalog : list service)
  : result (list host_dict) :=
  let host_list : gmap string Z :=
    foldl (fun m s => <[service_host s := 1]> m) ∅ service_catalog in
  let host_list := literal_host_list in
  aggregate_hosts mc host_list.

(** ** Concrete monitoring clients

    A table-driven client used to run the views on explicit inputs: every
    host reports the same interfaces and partitions, and the hosts listed
    in [tc_down] cannot be reached. *)

Record telemetry := {
  tc_state : Z;
  tc_cpu_load : Q;
  tc_mem_usage : Q;
  tc_total_mem : Q;
  tc_partitions : list (string * partition_stats);
  tc_interfaces : list (string * interface_stats);
  tc_down : list string
}.

Definition lookup_stats {A} (tbl : list (string * A)) (key : string)
  : result A :=
  match List.find (fun p => String.eqb (fst p) key) tbl with
  | Some p => Ok (snd p)
  | None => Raise (ClientError key)
  end.

Definition reach {A} (t : telemetry) (host : string) (a : A) : result A :=
  if existsb (String.eqb host) (tc_down t)
  then Raise (ClientError host) else Ok a.

Definition table_client (t : telemetry) : MonitorClient :=
  {| get_overall_state := fun h => reach t h (tc_state t);
     get_errors := fun h => reach t h [];
     get_warnings := fun h => reach t h [];
     get_notices := fun h => reach t h [];
     get_cpu_load := fun h => reach t h (tc_cpu_load t);
     get_cpu_cores := fun h => reach t h 4;
     get_cpu_speed := fun h => reach t h (2400 # 1);
     get_total_memory := fun h => reach t h (tc_total_mem t);
     get_mem_usage := fun h => reach t h (tc_mem_usage t);
     get_monitored_partitions :=
       fun h => reach t h (map fst (tc_partitions t));
     get_partition_stats :=
       fun h p => _ ← reach t h tt; lookup_stats (tc_partitions t) p;
     get_monitored_interfaces :=
       fun h => reach t h (map fst (tc_interfaces t));
     get_interface_stats :=
       fun h i => _ ← reach t h tt; lookup_stats (tc_interfaces t) i |}.

Definition ifstat (bandwidth used : Q) : interface_stats :=
  {| is_bandwidth := bandwidth; is_rx := 0; is_tx := 0; is_used := used |}.

Definition idle (ifs : list (string * interface_stats)) : telemetry :=
  {| tc_state := 1; tc_cpu_load := 10; tc_mem_usage := 20;
     tc_total_mem := 1024; tc_partitions := []; tc_interfaces := ifs;
     tc_down := [] |}.

(** ** Vocabulary of the specification

    The views publish classifications as CSS class names; the
    specification names them as enumerations. *)

Inductive HealthState : Type := OK | WARN | ERROR.

Inductive UtilizationClass : Type := NORMAL | WARNING | CRITICAL.

Definition health_state_of (css : string) : option HealthState :=
  if String.eqb css "host_ok" then Some OK
  else if String.eqb css "host_warn" then Some WARN
  else if String.eqb css "host_error" then Some ERROR
  else None.

Definition utilization_class_of (css : string) : option UtilizationClass :=
  if String.eqb css "progress-danger" then Some CRITICAL
  else if String.eqb css "progress-warning" then Some WARNING
  else if String.eqb css "progress-success" then Some NORMAL
  else None.

(** The three-way threshold rule of the specification, as a relation
    between a percentage and the class name published for it. *)
Definition classified (p : Q) (css : string) : Prop :=
  (utilization_class_of css = Some CRITICAL <-> (90 < p)%Q) /\
  (utilization_class_of css = Some WARNING <-> (60 < p)%Q /\ (p <= 90)%Q) /\
  (utilization_class_of css = Some NORMAL <-> (p <= 60)%Q).

(** The aggregate of the specification: [Σ((used%/100) * bandwidth)],
    [Σ bandwidth], and [round] (Python 2: halves away from zero). *)
Definition total_weighted_used (l : list interface_stats) : Q :=
  fold_right (fun s acc => ((is_used s / 100) * is_bandwidth s + acc)%Q) 0%Q l.

Definition total_bandwidth (l : list interface_stats) : Q :=
  fold_right (fun s acc => (is_bandwidth s + acc)%Q) 0%Q l.

Definition py_round (x : Q) : Z :=
  if Qle_bool 0 x then Qfloor (x + (1 # 2)) else Qceiling (x - (1 # 2)).

Definition spec_aggregate_used (l : list interface_stats) : Z :=
  py_round (total_weighted_used l / total_bandwidth l * 100).

(** The total row of a result, if it has one as its last element. *)
Definition total_row (rows : list net_row) : option total_dict :=
  match last rows with
  | Some (TotalRow t) => Some t
  | _ => None
  end.

(** The per-interface rows of a result. *)
Definition iface_rows (rows : list net_row) : list int_dict :=
  omap (fun r => match r with IfaceRow d => Some d | TotalRow _ => None end)
       rows.

(** The rows the loop appends to [net_ret] when the interfaces [ints]
    report the statistics [stats]. *)
Fixpoint selected_rows (iface : option string) (ints : list string)
    (stats : list interface_stats) : list net_row :=
  match ints, stats with
  | i :: ints', s :: stats' =>
      (if iface_selected iface i then [IfaceRow (int_dict_of i s)] else [])
      ++ selected_rows iface ints' stats'
  | _, _ => []
  end.

(** The aggregate an iteration assigns to [tused] (line 126), given the
    values of [tused] and [tband] before the iteration. *)
Definition tused_next (tused : Z) (tband : Q) (s : interface_stats) : Z :=
  py_int (((inject_Z tused + (is_used s / 100) * is_bandwidth s)
           / (tband + is_bandwidth s)) * 100)%Q.

Definition tclass_of (tused : Z) : string :=
  if tused >? 90 then "progress-danger"
  else if tused >? 60 then "progress-warning"
  else "progress-success".

(** A fleet of two hosts, inserted in the order 10.0.0.9, 10.0.0.2. *)
Definition two_hosts : gmap string Z :=
  <["10.0.0.2" := 1]> (<["10.0.0.9" := 1]> ∅).

(** Telemetry in which the host 10.0.0.9 cannot be reached. *)
Definition one_down : telemetry :=
  {| tc_state := 1; tc_cpu_load := 10; tc_mem_usage := 20;
     tc_total_mem := 1024; tc_partitions := []; tc_interfaces := [];
     tc_down := ["10.0.0.9"] |}.

(** The aggregate used% and class a result carries in its total row. *)
Definition aggregate (r : result (list net_row)) : option (Z * string) :=
  match r with
  | Ok rows => (fun t => (td_used t, td_class t)) <$> total_row rows
  | Raise _ => None
  end.

(** ** The views built on the per-host dictionaries

    [HostDetailView.get_data] and the four [*StatsView.get] methods read
    their arguments from [kwargs], call the dictionaries above and the
    metrics client, and can raise two more exceptions: [KeyError] from
    [kwargs[...]] and [IndexError] from [list.pop()]. *)

Inductive error : Type :=
| Exn (e : exn)
| KeyError (key : string)
| IndexError.

Inductive outcome (A : Type) : Type :=
| Return (a : A)
| Throw (e : error).

Arguments Return {A} a.
Arguments Throw {A} e.

#[global] Instance outcome_ret : MRet outcome := fun _ a => Return a.
#[global] Instance outcome_bind : MBind outcome := fun _ _ f m =>
  match m with
  | Return a => f a
  | Throw e => Throw e
  end.

(** A call into the per-host dictionaries or a client. *)
Definition call {A} (r : result A) : outcome A :=
  match r with
  | Ok a => Return a
  | Raise e => Throw (Exn e)
  end.

(** [d[key]] *)
Definition dict_get {V} (d : gmap string V) (key : string) : outcome V :=
  match d !! key with
  | Some v => Return v
  | None => Throw (KeyError key)
  end.

(** [l.pop()]: the list without its last element, and that element. *)
Definition py_pop {A} (l : list A) : outcome (list A * A) :=
  match last l with
  | Some x => Return (removelast l, x)
  | None => Throw IndexError
  end.

(** The metrics client ([horizon.api.monitoring.metricsclient]); [G] is
    the type of the graph data it returns.  The second argument of
    [get_cpu_graph] and [get_network_graph] is optional in the calls. *)
Record MetricsClient (G : Type) := {
  get_cpu_graph : string -> option string -> result G;
  get_mem_graph : string -> result G;
  get_network_graph : string -> option string -> result G
}.

Arguments get_cpu_graph {G}.
Arguments get_mem_graph {G}.
Arguments get_network_graph {G}.

(** The dictionary [HostDetailView.get_data] stores in [context['host']]:
    the keys of [_get_host_dict] and the keys added at lines 189-200. *)
Record host_detail (G : Type) := {
  dt_host : host_gen_dict;
  dt_cpu : host_cpu_dict;
  dt_mem : host_mem_dict;
  dt_part : host_part_dict;
  dt_net : list net_row;
  dt_net_total : net_row;
  dt_cpu_graph : G;
  dt_mem_graph : G;
  dt_net_graph : G
}.

Arguments dt_host {G}.
Arguments dt_cpu {G}.
Arguments dt_mem {G}.
Arguments dt_part {G}.
Arguments dt_net {G}.
Arguments dt_net_total {G}.
Arguments dt_cpu_graph {G}.
Arguments dt_mem_graph {G}.
Arguments dt_net_graph {G}.

Definition HostDetailView_get_data {G} (mc : MonitorClient)
    (mtc : MetricsClient G) (kwargs : gmap string string)
  : outcome (host_detail G) :=
  host ← dict_get kwargs "host_id";
  host_dict ← call (_get_host_dict mc host);
  cpu ← call (_get_host_cpu_dict mc host);
  mem ← call (_get_host_mem_dict mc host);
  part ← call (_get_host_part_dict mc host);
  net_dict ← call (_get_host_net_dict mc host None);
  '(net_dict, tot_net_stats) ← py_pop net_dict;
  cpu_graph ← call (get_cpu_graph mtc host None);
  mem_graph ← call (get_mem_graph mtc host);
  net_graph ← call (get_network_graph mtc host None);
  mret {| dt_host := host_dict; dt_cpu := cpu; dt_mem := mem;
          dt_part := part; dt_net := net_dict;
          dt_net_total := tot_net_stats; dt_cpu_graph := cpu_graph;
          dt_mem_graph := mem_graph; dt_net_graph := net_graph |}.

(** The dictionary [message] of the stats views: either the keys
    ['graph'] and ['stats'], or the key ['error']. *)
Inductive message (G : Type) : Type :=
| StatsMessage (graph : G) (stats : list net_row)
| ErrorMessage (error : string).

Arguments StatsMessage {G} graph stats.
Arguments ErrorMessage {G} error.

(** The [HttpResponse]: its content, whether the content went through
    [simplejson.dumps], and its mimetype. *)
Record response (G : Type) := {
  rs_content : message G;
  rs_json : bool;
  rs_mimetype : string
}.

Arguments rs_content {G}.
Arguments rs_json {G}.
Arguments rs_mimetype {G}.

(** Lines 213-218 of [NetStatsView.get], repeated at lines 261-266 of
    [DiskStatsView.get]. *)
Definition net_stats_message {G} (mc : MonitorClient) (mtc : MetricsClient G)
    (is_ajax : bool) (host : string) (interface : option string)
  : outcome (message G) :=
  if is_ajax then
    graph ← call (get_network_graph mtc host interface);
    stats ← call (_get_host_net_dict mc host interface);
    mret (StatsMessage graph stats)
  else mret (ErrorMessage "Not a valid XMLHttpRequest").

Definition NetStatsView_get {G} (mc : MonitorClient) (mtc : MetricsClient G)
    (is_ajax : bool) (kwargs : gmap string string) : outcome (response G) :=
  host ← dict_get kwargs "host_id";
  interface ← dict_get kwargs "int_id";
  let interface :=
    if String.eqb interface "all" then None else Some interface in
  message ← net_stats_message mc mtc is_ajax host interface;
  mret {| rs_content := message; rs_json := true;
          rs_mimetype := "application/json" |}.

Definition DiskStatsView_get {G} (mc : MonitorClient) (mtc : MetricsClient G)
    (is_ajax : bool) (kwargs : gmap string string) : outcome (response G) :=
  host ← dict_get kwargs "host_id";
  interface ← dict_get kwargs "int_id";
  let interface :=
    if String.eqb interface "all" then None else Some interface in
  message ← net_stats_message mc mtc is_ajax host interface;
  mret {| rs_content := message; rs_json := false;
          rs_mimetype := "application/text" |}.

(** The sum of one statistic over the interfaces of a host. *)
Definition qsum (f : interface_stats -> Q) (l : list interface_stats) : Q :=
  fold_right (fun s acc => (f s + acc)%Q) 0%Q l.

(** A metrics client that returns the same graph for every query. *)
Definition const_metrics {G} (g : G) : MetricsClient G :=
  {| get_cpu_graph := fun _ _ => Ok g;
     get_mem_graph := fun _ => Ok g;
     get_network_graph := fun _ _ => Ok g |}.

(** A metrics client that cannot be reached. *)
Definition no_metrics (G : Type) : MetricsClient G :=
  {| get_cpu_graph := fun _ _ => Raise (ClientError "metrics");
     get_mem_graph := fun _ => Raise (ClientError "metrics");
     get_network_graph := fun _ _ => Raise (ClientError "metrics") |}.

(** The dictionary [part_dict] built for one partition (lines 76-81). *)
Definition part_entry_of (part : string) (stats : partition_stats)
  : part_entry :=
  {| pe_name := part; pe_total := ps_total stats; pe_used := ps_used stats |}.

(** The dictionary of one fleet entry, from the values the nine monitoring
    calls return for the host. *)
Definition host_dict_of (host : string) (st : Z) (e w no : list string)
    (load : Q) (ncores : Z) (speed total usage : Q) : host_dict :=
  {| name := host; state := st;
     class := if st =? 1 then "host_ok"
              else if st =? 0 then "host_warn" else "host_error";
     errors := e; warnings := w; notices := no;
     cpu_load := load; cores := ncores; cpu_speed := speed;
     cpu_class := if gtb load 90 then "progress-danger"
                  else if gtb load 60 then "progress-warning"
                  else "progress-success";
     total_mem := total; mem_usage := usage;
     mem_used := ((usage / 100) * total)%Q;
     mem_class := if gtb usage 90 then "progress-danger"
                  else if gtb usage 60 then "progress-warning"
                  else "progress-success" |}.

(** [CpuStatsView.get] and [MemStatsView.get].  Both read [kwargs] twice
    and then evaluate [interface == 'all'] (lines 226 and 242).  In both
    methods [interface] is a local variable, because the next line assigns
    it, and nothing assigns it before the comparison: the comparison raises
    [UnboundLocalError] and the statements after it are not reached. *)
Definition CpuStatsView_get {G} (mc : MonitorClient) (mtc : MetricsClient G)
    (is_ajax : bool) (kwargs : gmap string string) : outcome (response G) :=
  host ← dict_get kwargs "host_id";
  core ← dict_get kwargs "cpu_id";
  Throw (Exn (UnboundLocalError "interface")).

Definition MemStatsView_get {G} (mc : MonitorClient) (mtc : MetricsClient G)
    (is_ajax : bool) (kwargs : gmap string string) : outcome (response G) :=
  host ← dict_get kwargs "host_id";
  dimm ← dict_get kwargs "mem_id";
  Throw (Exn (UnboundLocalError "interface")).

(** The [kwargs] of a stats request for one host and one interface. *)
Definition stats_kwargs (host int_id : string) : gmap string string :=
  <["int_id" := int_id]> (<["host_id" := host]> ∅).

(** Telemetry of a host with one partition and one interface. *)
Definition detail_host : telemetry :=
  {| tc_state := 1; tc_cpu_load := 10; tc_mem_usage := 20;
     tc_total_mem := 1024;
     tc_partitions := [("/", {| ps_total := 100; ps_used := 40 |})];
     tc_interfaces := [("eth0", ifstat 100 50)];
     tc_down := [] |}.

(** ** [horizon/api/quantum.py]: the dictionary helpers

    The API dictionaries are maps from keys to values; for the keys used
    here (['name'], ['id']) the values are strings. *)

(** [s[:n]]: the first [n] characters, or all but the last [-n] when [n]
    is negative. *)
Definition py_slice_to (s : string) (n : Z) : string :=
  if 0 <=? n then substring 0 (Z.to_nat n) s
  else substring 0 (Z.to_nat (Z.of_nat (String.length s) + n)) s.

(** [QuantumAPIDictWrapper.set_id_as_name_if_empty], as a function of
    [self._apidict]; both [KeyError]s are caught and leave the dictionary
    as it is.  The default of [length] is [8]. *)
Definition set_id_as_name_if_empty (_apidict : gmap string string)
    (length : Z) : gmap string string :=
  match _apidict !! "name" with
  | None => _apidict
  | Some nm =>
      if String.eqb nm "" then
        match _apidict !! "id" with
        | None => _apidict
        | Some id =>
            let id := if length =? 0 then id else py_slice_to id length in
            <["name" := ("(" ++ id ++ ")")%string]> _apidict
        end
      else _apidict
  end.

Definition IP_VERSION_DICT : gmap Z string :=
  <[6 := "IPv6"]> (<[4 := "IPv4"]> ∅).

(** [get_ipver_str]: [IP_VERSION_DICT.get(ip_version, '')]. *)
Definition get_ipver_str (ip_version : Z) : string :=
  default "" (IP_VERSION_DICT !! ip_version).

(** A network dictionary without a name. *)
Definition unnamed_network : gmap string string :=
  <["id" := "3f2a9c1e-77b0-4d5e-9a10-0c6f5d2e8b41"]> (<["name" := ""]> ∅).

(** ** Where exact arithmetic is the binary64 arithmetic

    A binary64 operation returns the representable number nearest to its
    exact result, so it is exact whenever that result is representable.
    [binary64_exact q] is a sufficient condition for [q] to be
    representable: [q] is [m / 2^k] with [|m| < 2^53] and
    [0 <= k <= 1074]. *)
Definition binary64_exact (q : Q) : Prop :=
  exists m k : Z,
    Z.abs m < 2 ^ 53 /\ 0 <= k <= 1074 /\
    (q == inject_Z m / inject_Z (2 ^ k))%Q.

(** Statistics of one interface for which no operation of lines 114 and
    126 rounds: the bandwidth is the integer [b], the used% is
    [100 * m / 2^k], and both are small (used% 0, 12.5, 25, 50, 75 or 100,
    for instance). *)
Definition dyadic_stats (s : interface_stats) (b m k : Z) : Prop :=
  0 < b < 2 ^ 26 /\ 0 <= m < 2 ^ 26 /\ 0 <= k <= 64 /\
  (is_bandwidth s == inject_Z b)%Q /\
  (is_used s == inject_Z (100 * m) / inject_Z (2 ^ k))%Q.

(** * Properties *)

(** ** The result monad *)

Lemma bind_Ok {A B} (m : result A) (f : A -> result B) (b : B) :
  m ≫= f = Ok b <-> exists a, m = Ok a /\ f a = Ok b.
Proof.
  destruct m as [a|e]; simpl; split.
  - intros H. now exists a.
  - intros (a' & Ha & Hf). now inversion Ha; subst.
  - discriminate.
  - intros (a' & Ha & _). discriminate.
Qed.

(** Inverts a hypothesis [m ≫= f = Ok b] into its two halves. *)
Ltac inv_bind H :=
  let a := fresh "a" in
  let Ha := fresh "Ha" in
  apply bind_Ok in H; destruct H as (a & Ha & H); simpl in H.

(** ** Numbers *)

Lemma gtb_true (x y : Q) : gtb x y = true <-> (y < x)%Q.
Proof.
  unfold gtb. rewrite negb_true_iff, <- not_true_iff_false, Qle_bool_iff.
  split; [apply Qnot_le_lt | apply Qlt_not_le].
Qed.

Lemma gtb_false (x y : Q) : gtb x y = false <-> (x <= y)%Q.
Proof. unfold gtb. now rewrite negb_false_iff, Qle_bool_iff. Qed.

Lemma Zquot_cross (a b c d : Z) :
  0 < b -> 0 < d -> a * d = c * b -> a ÷ b = c ÷ d.
Proof.
  intros Hb Hd H.
  rewrite <- (Z.quot_mul_cancel_r a b d) by lia.
  rewrite H, (Z.mul_comm b d), Z.quot_mul_cancel_r; lia.
Qed.

#[global] Instance py_int_proper : Proper (Qeq ==> eq) py_int.
Proof.
  intros x y H. unfold py_int. apply Zquot_cross; try lia.
  exact H.
Qed.

(** ** The threshold rule *)

Lemma threshold_classified (p : Q) :
  classified p
    (if gtb p 90 then "progress-danger"
     else if gtb p 60 then "progress-warning"
     else "progress-success").
Proof.
  unfold classified.
  destruct (gtb p 90) eqn:H90.
  - apply gtb_true in H90. simpl.
    assert (60 < p)%Q by (eapply Qlt_trans; [|exact H90]; reflexivity).
    repeat split; intros; try easy.
    + destruct H0 as [_ H0]. now apply Qle_not_lt in H0.
    + now apply Qle_not_lt in H0.
  - apply gtb_false in H90. destruct (gtb p 60) eqn:H60.
    + apply gtb_true in H60. simpl.
      repeat split; intros; try easy.
      * now apply Qle_not_lt in H90.
      * now apply Qle_not_lt in H.
    + apply gtb_false in H60. simpl.
      repeat split; intros; try easy.
      * now apply Qle_not_lt in H90.
      * destruct H as [H _]. now apply Qle_not_lt in H60.
Qed.

(** ** Per-host dictionaries *)

Lemma get_host_dict_Ok mc host n e w no :
  get_overall_state mc host = Ok n ->
  get_errors mc host = Ok e ->
  get_warnings mc host = Ok w ->
  get_notices mc host = Ok no ->
  _get_host_dict mc host =
    Ok {| hg_name := host; hg_state := n;
          hg_class := if n =? 1 then "host_ok"
                      else if n =? 0 then "host_warn" else "host_error";
          hg_errors := e; hg_warnings := w; hg_notices := no |}.
Proof.
  intros Hs He Hw Hn. unfold _get_host_dict.
  rewrite Hs; simpl. rewrite He; simpl. rewrite Hw; simpl.
  now rewrite Hn.
Qed.

Lemma get_host_dict_inv mc host d :
  _get_host_dict mc host = Ok d ->
  hg_name d = host /\ get_overall_state mc host = Ok (hg_state d) /\
  hg_class d = (if hg_state d =? 1 then "host_ok"
                else if hg_state d =? 0 then "host_warn" else "host_error").
Proof.
  unfold _get_host_dict. intros H.
  inv_bind H. inv_bind H. inv_bind H. inv_bind H.
  inversion H; subst; simpl. auto.
Qed.

Lemma get_host_cpu_dict_inv mc host d :
  _get_host_cpu_dict mc host = Ok d ->
  get_cpu_load mc host = Ok (hc_cpu_load d) /\
  hc_cpu_class d =
    (if gtb (hc_cpu_load d) 90 then "progress-danger"
     else if gtb (hc_cpu_load d) 60 then "progress-warning"
     else "progress-success").
Proof.
  unfold _get_host_cpu_dict. intros H.
  inv_bind H. inv_bind H. inv_bind H.
  inversion H; subst; simpl. auto.
Qed.

Lemma get_host_mem_dict_inv mc host d :
  _get_host_mem_dict mc host = Ok d ->
  get_total_memory mc host = Ok (hm_total_mem d) /\
  get_mem_usage mc host = Ok (hm_mem_usage d) /\
  hm_mem_used d = ((hm_mem_usage d / 100) * hm_total_mem d)%Q /\
  hm_mem_class d =
    (if gtb (hm_mem_usage d) 90 then "progress-danger"
     else if gtb (hm_mem_usage d) 60 then "progress-warning"
     else "progress-success").
Proof.
  unfold _get_host_mem_dict. intros H.
  inv_bind H. inv_bind H.
  inversion H; subst; simpl. auto.
Qed.

(** C5. For every integer health code [n] the monitoring client returns,
    the host dictionary is built and its class is OK when [n = 1], WARNING
    when [n = 0] and ERROR for every other integer. *)
Theorem C5_health_classification mc host n e w no :
  get_overall_state mc host = Ok n ->
  get_errors mc host = Ok e ->
  get_warnings mc host = Ok w ->
  get_notices mc host = Ok no ->
  exists d,
    _get_host_dict mc host = Ok d /\ hg_state d = n /\
    (n = 1 -> health_state_of (hg_class d) = Some OK) /\
    (n = 0 -> health_state_of (hg_class d) = Some WARN) /\
    (n <> 1 -> n <> 0 -> health_state_of (hg_class d) = Some ERROR).
Proof.
  intros Hs He Hw Hn. eexists. split.
  - eapply get_host_dict_Ok; eassumption.
  - simpl. split; [reflexivity|]. repeat split.
    + now intros ->.
    + now intros ->.
    + intros H1 H0.
      destruct (Z.eqb_spec n 1); [contradiction|].
      destruct (Z.eqb_spec n 0); [contradiction|]. reflexivity.
Qed.

Lemma C5_health_classification_witness :
  exists d,
    _get_host_dict (table_client (idle [])) "10.0.0.2" = Ok d /\
    hg_state d = 1 /\
    (1 = 1 -> health_state_of (hg_class d) = Some OK) /\
    (1 = 0 -> health_state_of (hg_class d) = Some WARN) /\
    (1 <> 1 -> 1 <> 0 -> health_state_of (hg_class d) = Some ERROR).
Proof.
  apply (C5_health_classification (table_client (idle [])) "10.0.0.2"
           1 [] [] []); reflexivity.
Defined.

(** C7. The memory dictionary's used-bytes field is
    [(mem_usage / 100.0) * total_mem]; when the reported total memory is
    zero it is zero for every usage percentage, and nothing raises. *)
Theorem C7_mem_used mc host total usage :
  get_total_memory mc host = Ok total ->
  get_mem_usage mc host = Ok usage ->
  exists d,
    _get_host_mem_dict mc host = Ok d /\
    hm_total_mem d = total /\ hm_mem_usage d = usage /\
    hm_mem_used d = ((usage / 100) * total)%Q /\
    ((total == 0)%Q -> (hm_mem_used d == 0)%Q).
Proof.
  intros Ht Hu. unfold _get_host_mem_dict. rewrite Ht; simpl.
  rewrite Hu; simpl. eexists. split; [reflexivity|]. simpl.
  repeat split. intros H0. rewrite H0. ring.
Qed.

Lemma C7_mem_used_witness :
  exists d,
    _get_host_mem_dict
      (table_client {| tc_state := 1; tc_cpu_load := 10; tc_mem_usage := 75;
                       tc_total_mem := 0; tc_partitions := [];
                       tc_interfaces := []; tc_down := [] |}) "10.0.0.2"
    = Ok d /\
    hm_total_mem d = 0%Q /\ hm_mem_usage d = 75%Q /\
    hm_mem_used d = ((75 / 100) * 0)%Q /\
    ((0 == 0)%Q -> (hm_mem_used d == 0)%Q).
Proof.
  apply C7_mem_used; reflexivity.
Defined.

(** C10. For a host with zero monitored partitions the partition
    collection raises an unbound-variable error instead of returning an
    empty sequence, although the only client call made succeeds. *)
Theorem C10_no_partitions_raises mc host :
  get_monitored_partitions mc host = Ok [] ->
  _get_host_part_dict mc host = Raise (UnboundLocalError "part_dict").
Proof. intros H. unfold _get_host_part_dict. now rewrite H. Qed.

Lemma C10_no_partitions_raises_witness :
  _get_host_part_dict (table_client (idle [])) "10.0.0.2"
  = Raise (UnboundLocalError "part_dict").
Proof.
  apply (C10_no_partitions_raises (table_client (idle [])) "10.0.0.2").
  reflexivity.
Defined.

(** ** The interface loop *)

Lemma net_body_Ok mc host iface st i st' :
  net_body mc host iface st i = Ok st' <->
  exists s,
    get_interface_stats mc host i = Ok s /\
    Qeq_bool (tband st + is_bandwidth s) 0 = false /\
    st' = {| net_ret := net_ret st ++ selected_rows iface [i] [s];
             tband := (tband st + is_bandwidth s)%Q;
             ttx := (ttx st + is_tx s)%Q;
             trx := (trx st + is_rx s)%Q;
             tused := tused_next (tused st) (tband st) s;
             tclass := tclass_of (tused_next (tused st) (tband st) s) |}.
Proof.
  unfold net_body, py_div, tused_next, tclass_of. simpl.
  destruct (get_interface_stats mc host i) as [s|e]; simpl.
  - destruct (Qeq_bool (tband st + is_bandwidth s) 0) eqn:Hz; simpl.
    + split; [discriminate|]. intros (s' & Hs & Hz' & _).
      inversion Hs; subst. congruence.
    + split.
      * intros H. exists s. repeat split; trivial.
        inversion H; subst; clear H.
        destruct (iface_selected iface i); simpl;
          now rewrite ?app_nil_r.
      * intros (s' & Hs & _ & ->). inversion Hs; subst.
        destruct (iface_selected iface i); simpl;
          now rewrite ?app_nil_r.
  - split; [discriminate|]. intros (s' & Hs & _). discriminate.
Qed.

Lemma net_loop_rows mc host iface ints : forall st st',
  net_loop mc host iface ints st = Ok st' ->
  exists stats,
    Forall2 (fun i s => get_interface_stats mc host i = Ok s) ints stats /\
    net_ret st' = net_ret st ++ selected_rows iface ints stats.
Proof.
  induction ints as [|i ints IH]; simpl; intros st st' H.
  - inversion H; subst. exists []. split; [constructor|].
    now rewrite app_nil_r.
  - inv_bind H. apply net_body_Ok in Ha. destruct Ha as (s & Hs & _ & ->).
    apply IH in H. destruct H as (stats & HF & Hret). simpl in Hret.
    exists (s :: stats). split; [now constructor|].
    rewrite Hret. simpl. now rewrite <- !app_assoc.
Qed.

Lemma get_host_net_dict_rows mc host iface rows :
  _get_host_net_dict mc host iface = Ok rows ->
  exists ints stats tot,
    get_monitored_interfaces mc host = Ok ints /\
    Forall2 (fun i s => get_interface_stats mc host i = Ok s) ints stats /\
    rows = selected_rows iface ints stats ++
           (if total_requested iface then [TotalRow tot] else []).
Proof.
  unfold _get_host_net_dict. intros H.
  inv_bind H. inv_bind H. inversion H; subst; clear H.
  apply net_loop_rows in Ha0. destruct Ha0 as (stats & HF & Hret).
  simpl in Hret. exists a, stats. eexists. split; [exact Ha|].
  split; [exact HF|]. rewrite Hret.
  destruct (total_requested iface); [reflexivity | now rewrite app_nil_r].
Qed.

Lemma selected_rows_iface iface ints : forall stats r,
  In r (selected_rows iface ints stats) ->
  exists i s, r = IfaceRow (int_dict_of i s) /\ In i ints /\
              iface_selected iface i = true.
Proof.
  induction ints as [|i ints IH]; intros [|s stats] r; simpl; try easy.
  rewrite in_app_iff. intros [H|H].
  - destruct (iface_selected iface i) eqn:Hsel; simpl in H; [|easy].
    destruct H as [<-|[]]. exists i, s. auto.
  - apply IH in H. destruct H as (i' & s' & -> & Hin & Hsel).
    exists i', s'. auto.
Qed.

Lemma selected_rows_None ints : forall stats,
  length stats = length ints ->
  iface_rows (selected_rows None ints stats) = zip_with int_dict_of ints stats.
Proof.
  induction ints as [|i ints IH]; intros [|s stats] Hlen; simpl in *;
    try easy.
  unfold iface_rows in *. simpl. f_equal. apply IH. lia.
Qed.

Lemma zip_with_int_dict_names ints : forall stats,
  length stats = length ints ->
  map id_name (zip_with int_dict_of ints stats) = ints.
Proof.
  induction ints as [|i ints IH]; intros [|s stats] Hlen; simpl in *;
    try easy.
  f_equal. apply IH. lia.
Qed.

Lemma iface_rows_app rows1 rows2 :
  iface_rows (rows1 ++ rows2) = iface_rows rows1 ++ iface_rows rows2.
Proof. unfold iface_rows. apply omap_app. Qed.

(** ** The threshold classification *)

Lemma get_host_net_dict_classified mc host iface rows d :
  _get_host_net_dict mc host iface = Ok rows ->
  In (IfaceRow d) rows -> classified (id_used d) (id_class d).
Proof.
  intros H Hin. apply get_host_net_dict_rows in H.
  destruct H as (ints & stats & tot & _ & _ & ->).
  apply in_app_iff in Hin. destruct Hin as [Hin|Hin].
  - apply selected_rows_iface in Hin.
    destruct Hin as (i & s & Heq & _). inversion Heq; subst.
    apply threshold_classified.
  - destruct (total_requested iface); simpl in Hin; [|easy].
    destruct Hin as [Hin|[]]. discriminate.
Qed.



(** ** The interface filter *)

Lemma total_row_snoc rows t : total_row (rows ++ [TotalRow t]) = Some t.
Proof. unfold total_row. now rewrite last_snoc. Qed.

Lemma net_dict_no_filter mc host rows :
  _get_host_net_dict mc host None = Ok rows ->
  exists ints tot,
    get_monitored_interfaces mc host = Ok ints /\
    map id_name (iface_rows rows) = ints /\
    length rows = S (length ints) /\
    total_row rows = Some tot.
Proof.
  intros H. apply get_host_net_dict_rows in H.
  destruct H as (ints & stats & tot & Hints & HF & ->). simpl.
  assert (Hlen : length stats = length ints)
    by (symmetry; apply (Forall2_length _ _ _ HF)).
  exists ints, tot. split; [exact Hints|].
  rewrite iface_rows_app, selected_rows_None by exact Hlen.
  simpl. rewrite app_nil_r. split; [now apply zip_with_int_dict_names|].
  split; [|apply total_row_snoc].
  rewrite length_app. simpl.
  rewrite <- (zip_with_int_dict_names ints stats Hlen) at 2.
  rewrite length_map, <- (selected_rows_None ints stats Hlen).
  clear. revert stats. induction ints as [|i ints IH]; intros [|s stats];
    simpl; try lia.
  unfold iface_rows in *. simpl. specialize (IH stats). lia.
Qed.

Lemma net_dict_named mc host i rows :
  i <> "All" ->
  _get_host_net_dict mc host (Some i) = Ok rows ->
  total_row rows = None /\
  forall r, In r rows -> exists d, r = IfaceRow d /\ id_name d = i.
Proof.
  intros Hne H. apply get_host_net_dict_rows in H.
  destruct H as (ints & stats & tot & _ & _ & ->). simpl.
  destruct (String.eqb_spec i "All") as [->|_]; [contradiction|].
  rewrite app_nil_r.
  assert (Hall : forall r, In r (selected_rows (Some i) ints stats) ->
                           exists d, r = IfaceRow d /\ id_name d = i).
  { intros r Hin. apply selected_rows_iface in Hin.
    destruct Hin as (i' & s & -> & _ & Hsel). simpl in Hsel.
    apply String.eqb_eq in Hsel. subst. eexists. split; reflexivity. }
  split; [|exact Hall].
  unfold total_row. destruct (last _) as [[d|t]|] eqn:Hl; try reflexivity.
  apply last_Some_elem_of, list_elem_of_In, Hall in Hl.
  destruct Hl as (d & Hd & _). discriminate.
Qed.

Lemma net_dict_All mc host rows :
  _get_host_net_dict mc host (Some "All") = Ok rows ->
  exists ints tot,
    get_monitored_interfaces mc host = Ok ints /\
    total_row rows = Some tot /\
    forall d, In d (iface_rows rows) -> id_name d = "All".
Proof.
  intros H. apply get_host_net_dict_rows in H.
  destruct H as (ints & stats & tot & Hints & _ & ->). simpl.
  exists ints, tot. split; [exact Hints|]. split; [apply total_row_snoc|].
  intros d Hd. rewrite iface_rows_app in Hd. simpl in Hd.
  rewrite app_nil_r in Hd. unfold iface_rows in Hd.
  apply list_elem_of_In, list_elem_of_omap in Hd.
  destruct Hd as (r & Hr & Hd). apply list_elem_of_In in Hr.
  apply selected_rows_iface in Hr.
  destruct Hr as (i & s & -> & _ & Hsel). cbn [iface_selected] in Hsel.
  apply String.eqb_eq in Hsel. inversion Hd; subst. reflexivity.
Qed.

(** C9, evaluated where the code departs from it: with the filter ["All"]
    and one monitored interface [eth0], the result is the total row alone;
    the row of [eth0] is not in it. *)
Theorem C9_All_filter_drops_interface_rows :
  _get_host_net_dict (table_client (idle [("eth0", ifstat 100 50)]))
    "10.0.0.2" (Some "All")
  = Ok [TotalRow {| td_bandwidth := 100; td_tx := 0; td_rx := 0;
                    td_used := 50; td_class := "progress-success" |}].
Proof. reflexivity. Qed.

(** ** The aggregate row *)

(** C6, as the code has it: for a host with zero monitored interfaces the
    aggregator does not raise and produces no per-interface rows; the
    aggregate row, appended when the filter is absent or ["All"], carries
    zero totals, used% [0] and the empty class name, which is no
    UtilizationClass. *)
Theorem C6_zero_interfaces mc host iface :
  get_monitored_interfaces mc host = Ok [] ->
  exists rows,
    _get_host_net_dict mc host iface = Ok rows /\
    iface_rows rows = [] /\
    rows = (if total_requested iface
            then [TotalRow {| td_bandwidth := 0; td_tx := 0; td_rx := 0;
                              td_used := 0; td_class := "" |}]
            else []) /\
    utilization_class_of "" = None.
Proof.
  intros H. unfold _get_host_net_dict. rewrite H. simpl.
  eexists. split; [reflexivity|].
  destruct (total_requested iface); repeat split.
Qed.

Lemma C6_zero_interfaces_witness :
  exists rows,
    _get_host_net_dict (table_client (idle [])) "10.0.0.2" None = Ok rows /\
    iface_rows rows = [] /\
    rows = (if total_requested None
            then [TotalRow {| td_bandwidth := 0; td_tx := 0; td_rx := 0;
                              td_used := 0; td_class := "" |}]
            else []) /\
    utilization_class_of "" = None.
Proof.
  apply (C6_zero_interfaces (table_client (idle [])) "10.0.0.2" None).
  reflexivity.
Defined.

(** The claim C6 as stated fails at a host without interfaces: the
    aggregate row is produced with used% [0], but its class is not
    NORMAL. *)
Lemma C6_counterexample :
  exists t,
    _get_host_net_dict (table_client (idle [])) "10.0.0.2" None
    = Ok [TotalRow t] /\
    td_used t = 0 /\
    utilization_class_of (td_class t) <> Some NORMAL.
Proof. eexists. split; [reflexivity|]. split; [reflexivity|]. discriminate. Qed.

(** C1, evaluated where the code departs from it: the same two interfaces
    enumerated in the two possible orders give aggregate used% 62
    (WARNING) and 50 (NORMAL). *)
Theorem C1_aggregate_depends_on_order :
  let eth0 := ("eth0", ifstat 200 50) in
  let eth1 := ("eth1", ifstat 200 100) in
  [eth0; eth1] ≡ₚ [eth1; eth0] /\
  aggregate (_get_host_net_dict (table_client (idle [eth0; eth1]))
               "10.0.0.2" None)
  = Some (62, "progress-warning") /\
  aggregate (_get_host_net_dict (table_client (idle [eth1; eth0]))
               "10.0.0.2" None)
  = Some (50, "progress-success").
Proof.
  intros eth0 eth1. split; [apply perm_swap|]. split; reflexivity.
Qed.

Lemma single_interface_Ok mc host i s :
  get_monitored_interfaces mc host = Ok [i] ->
  get_interface_stats mc host i = Ok s ->
  ~ (is_bandwidth s == 0)%Q ->
  _get_host_net_dict mc host None =
    Ok [IfaceRow (int_dict_of i s);
        TotalRow {| td_bandwidth := (0 + is_bandwidth s)%Q;
                    td_tx := (0 + is_tx s)%Q;
                    td_rx := (0 + is_rx s)%Q;
                    td_used := tused_next 0 0 s;
                    td_class := tclass_of (tused_next 0 0 s) |}].
Proof.
  intros Hi Hs Hb. unfold _get_host_net_dict. rewrite Hi. simpl.
  assert (Hbody : net_body mc host None net_init i = Ok
            {| net_ret := net_ret net_init ++ selected_rows None [i] [s];
               tband := (tband net_init + is_bandwidth s)%Q;
               ttx := (ttx net_init + is_tx s)%Q;
               trx := (trx net_init + is_rx s)%Q;
               tused := tused_next (tused net_init) (tband net_init) s;
               tclass := tclass_of
                           (tused_next (tused net_init) (tband net_init) s)
            |}).
  { apply net_body_Ok. exists s. split; [exact Hs|]. split; [|reflexivity].
    apply not_true_iff_false. intros Hz. apply Qeq_bool_iff in Hz.
    apply Hb. simpl in Hz. now rewrite Qplus_0_l in Hz. }
  rewrite Hbody. reflexivity.
Qed.

(** In exact arithmetic one iteration from the initial state gives the
    truncated used% of the interface. *)
Lemma tused_next_single (s : interface_stats) :
  ~ (is_bandwidth s == 0)%Q ->
  tused_next 0 0 s
  = py_int (total_weighted_used [s] / total_bandwidth [s] * 100) /\
  tused_next 0 0 s = py_int (is_used s).
Proof.
  intros Hb. unfold tused_next, total_weighted_used, total_bandwidth.
  cbn [fold_right]. split; apply py_int_proper.
  - change (inject_Z 0) with 0%Q. now rewrite !Qplus_0_l, !Qplus_0_r.
  - change (inject_Z 0) with 0%Q. field. exact Hb.
Qed.

Lemma inject_Z_pow2_nonzero (k : Z) : 0 <= k -> ~ (inject_Z (2 ^ k) == 0)%Q.
Proof.
  intros Hk H. unfold Qeq in H. simpl in H.
  pose proof (Z.pow_pos_nonneg 2 k ltac:(lia) Hk). lia.
Qed.

(** For [dyadic_stats] the operands and every intermediate result of
    [(float(used)/float(100)) * bandwidth] and of [(tused/tband) * 100] are
    representable. *)
Lemma dyadic_stats_exact s b m k :
  dyadic_stats s b m k ->
  ~ (is_bandwidth s == 0)%Q /\
  binary64_exact (is_used s) /\
  binary64_exact (is_bandwidth s) /\
  binary64_exact (is_used s / 100) /\
  binary64_exact (is_used s / 100 * is_bandwidth s) /\
  binary64_exact (is_used s / 100 * is_bandwidth s / is_bandwidth s) /\
  binary64_exact (is_used s / 100 * is_bandwidth s / is_bandwidth s * 100).
Proof.
  intros (Hb & Hm & Hk & Hband & Hused).
  pose proof (inject_Z_pow2_nonzero k (proj1 Hk)) as Hpow.
  assert (Hbnz : ~ (inject_Z b == 0)%Q).
  { intros H. unfold Qeq in H. simpl in H. lia. }
  assert (H26 : 2 ^ 26 = 67108864) by reflexivity.
  assert (H53 : 2 ^ 53 = 9007199254740992) by reflexivity.
  rewrite H26 in Hb, Hm.
  assert (Hmb : 0 <= m * b < 67108864 * 67108864) by nia.
  split; [now rewrite Hband|].
  split; [|split; [|split; [|split; [|split]]]].
  - exists (100 * m), k. rewrite H53, Z.abs_eq by lia.
    split; [lia|]. split; [lia|]. exact Hused.
  - exists b, 0. rewrite H53, Z.abs_eq by lia.
    split; [lia|]. split; [lia|]. rewrite Hband.
    change (inject_Z (2 ^ 0)) with 1%Q. field.
  - exists m, k. rewrite H53, Z.abs_eq by lia.
    split; [lia|]. split; [lia|]. rewrite Hused, inject_Z_mult.
    change (inject_Z 100) with 100%Q. field. exact Hpow.
  - exists (m * b), k. rewrite H53, Z.abs_eq by lia.
    split; [lia|]. split; [lia|]. rewrite Hused, Hband, !inject_Z_mult.
    change (inject_Z 100) with 100%Q. field. exact Hpow.
  - exists m, k. rewrite H53, Z.abs_eq by lia.
    split; [lia|]. split; [lia|]. rewrite Hused, Hband, inject_Z_mult.
    change (inject_Z 100) with 100%Q. field. split; assumption.
  - exists (100 * m), k. rewrite H53, Z.abs_eq by lia.
    split; [lia|]. split; [lia|]. rewrite Hused, Hband.
    field. split; assumption.
Qed.




(** ** The order of the host keys *)

#[global] Instance str_le_total : Total str_le.
Proof. intros a b. apply String.leb_total. Qed.

#[global] Instance str_le_antisym : AntiSymm eq str_le.
Proof. intros a b. apply String.leb_antisym. Qed.

#[global] Instance str_le_trans : Transitive str_le.
Proof.
  intros a b c. unfold str_le, String.leb.
  destruct (String.compare a b) eqn:Hab; try discriminate; intros _.
  - apply String.compare_eq_iff in Hab. now subst.
  - destruct (String.compare b c) eqn:Hbc; try discriminate; intros _.
    + apply String.compare_eq_iff in Hbc. subst. now rewrite Hab.
    + apply String_as_OT.cmp_lt in Hab, Hbc.
      pose proof (String_as_OT.lt_trans _ _ _ Hab Hbc) as Hac.
      apply String_as_OT.cmp_lt in Hac. unfold String_as_OT.cmp in Hac.
      now rewrite Hac.
Qed.

Lemma sorted_keys_perm (m : gmap string Z) :
  sorted_keys m ≡ₚ (map_to_list m).*1.
Proof. apply merge_sort_Permutation. Qed.

Lemma sorted_keys_sorted (m : gmap string Z) :
  StronglySorted str_le (sorted_keys m).
Proof. apply StronglySorted_merge_sort; apply _. Qed.

Lemma sorted_keys_NoDup (m : gmap string Z) : NoDup (sorted_keys m).
Proof. rewrite sorted_keys_perm. apply NoDup_fst_map_to_list. Qed.

Lemma elem_of_sorted_keys (m : gmap string Z) (k : string) :
  k ∈ sorted_keys m <-> is_Some (m !! k).
Proof.
  rewrite sorted_keys_perm, list_elem_of_fmap. split.
  - intros ([k' v] & -> & Hin). apply elem_of_map_to_list in Hin.
    simpl. now exists v.
  - intros [v Hv]. exists (k, v). split; [reflexivity|].
    now apply elem_of_map_to_list.
Qed.

Lemma length_sorted_keys (m : gmap string Z) :
  length (sorted_keys m) = size m.
Proof.
  rewrite sorted_keys_perm, length_fmap. apply length_map_to_list.
Qed.

(** ** The loop over the hosts *)

Lemma host_entry_name mc k d : host_entry mc k = Ok d -> name d = k.
Proof.
  unfold host_entry. intros H. inv_bind H. inv_bind H. inv_bind H.
  inversion H; subst. simpl. now apply get_host_dict_inv in Ha.
Qed.

Lemma hosts_loop_Ok mc keys : forall acc hosts,
  hosts_loop mc keys acc = Ok hosts <->
  exists new,
    hosts = acc ++ new /\
    Forall2 (fun k d => host_entry mc k = Ok d) keys new.
Proof.
  induction keys as [|k keys IH]; simpl; intros acc hosts.
  - split.
    + intros H. inversion H; subst. exists []. split; [|constructor].
      now rewrite app_nil_r.
    + intros (new & -> & HF). inversion HF; subst. now rewrite app_nil_r.
  - split.
    + intros H. inv_bind H. apply IH in H. destruct H as (new & -> & HF).
      exists (a :: new). split; [now rewrite <- app_assoc|].
      now constructor.
    + intros (new & -> & HF). inversion HF as [|? d ? new' Hd HF']; subst.
      rewrite Hd. simpl. apply IH. exists new'.
      split; [now rewrite <- app_assoc | exact HF'].
Qed.

(** The loop stops at the first host whose dictionaries cannot be built,
    with the exception raised for that host. *)
Lemma hosts_loop_Raise mc before k after e : forall acc,
  Forall (fun h => succeeds (host_entry mc h)) before ->
  host_entry mc k = Raise e ->
  hosts_loop mc (before ++ k :: after) acc = Raise e.
Proof.
  induction before as [|h before IH]; simpl; intros acc Hb Hk.
  - now rewrite Hk.
  - inversion Hb as [|? ? [d Hd] Hb']; subst. rewrite Hd. simpl.
    now apply IH.
Qed.

Lemma hosts_loop_raises mc keys k : forall acc,
  In k keys -> raises (host_entry mc k) ->
  raises (hosts_loop mc keys acc).
Proof.
  induction keys as [|h keys IH]; simpl; intros acc Hin Hk; [easy|].
  destruct (host_entry mc h) as [d|e] eqn:Hh; simpl.
  - destruct Hin as [->|Hin].
    + destruct Hk as [e He]. congruence.
    + now apply IH.
  - now exists e.
Qed.

Lemma hosts_loop_succeeds mc keys : forall acc,
  Forall (fun h => succeeds (host_entry mc h)) keys ->
  exists new,
    hosts_loop mc keys acc = Ok (acc ++ new) /\
    Forall2 (fun k d => host_entry mc k = Ok d) keys new.
Proof.
  induction keys as [|h keys IH]; simpl; intros acc HF.
  - exists []. split; [now rewrite app_nil_r | constructor].
  - inversion HF as [|? ? [d Hd] HF']; subst. rewrite Hd. simpl.
    destruct (IH (acc ++ [d]) HF') as (new & Hloop & Hnew).
    exists (d :: new). split; [now rewrite Hloop, <- app_assoc|].
    now constructor.
Qed.

Lemma Forall2_host_entry_names mc keys hosts :
  Forall2 (fun k d => host_entry mc k = Ok d) keys hosts ->
  map name hosts = keys.
Proof.
  induction 1 as [|k d keys hosts Hd _ IH]; simpl; [reflexivity|].
  f_equal; [now apply (host_entry_name mc) | exact IH].
Qed.

Lemma aggregate_hosts_names mc (host_list : gmap string Z) hosts :
  aggregate_hosts mc host_list = Ok hosts ->
  map name hosts = sorted_keys host_list.
Proof.
  unfold aggregate_hosts. intros H. apply hosts_loop_Ok in H.
  destruct H as (new & -> & HF). simpl.
  now apply (Forall2_host_entry_names mc) in HF.
Qed.

(** ** Where the dictionaries raise *)

(** The division of line 126 raises as soon as the bandwidths seen so far
    sum to zero. *)
Lemma net_body_zero_bandwidth mc host iface st i s :
  get_interface_stats mc host i = Ok s ->
  (tband st + is_bandwidth s == 0)%Q ->
  net_body mc host iface st i = Raise ZeroDivisionError.
Proof.
  intros Hs Hz. unfold net_body, py_div. rewrite Hs. simpl.
  apply Qeq_bool_iff in Hz. now rewrite Hz.
Qed.

Lemma part_loop_Ok mc host parts : forall parts_ret part_dict,
  Forall (fun p => succeeds (get_partition_stats mc host p)) parts ->
  exists new last_dict,
    part_loop mc host parts parts_ret part_dict
    = Ok (parts_ret ++ new, last_dict) /\
    length new = length parts /\
    (parts <> [] -> is_Some last_dict).
Proof.
  induction parts as [|p parts IH]; simpl; intros parts_ret part_dict HF.
  - exists [], part_dict. rewrite app_nil_r. repeat split. congruence.
  - inversion HF as [|? ? [st Hst] HF']; subst. rewrite Hst. simpl.
    destruct (IH (parts_ret ++ [ {| pe_name := p; pe_total := ps_total st;
                                    pe_used := ps_used st |} ])
                 (Some {| pe_name := p; pe_total := ps_total st;
                          pe_used := ps_used st |}) HF')
      as (new & last_dict & Hloop & Hlen & Hlast).
    eexists (_ :: new), last_dict. rewrite Hloop, <- app_assoc. simpl.
    split; [reflexivity|]. split; [now rewrite Hlen|]. intros _.
    destruct parts as [|q parts]; [|apply Hlast; congruence].
    simpl in Hloop. inversion Hloop; subst. now eexists.
Qed.

(** With at least one partition the collection returns, one entry per
    partition. *)
Lemma get_host_part_dict_nonempty mc host parts :
  get_monitored_partitions mc host = Ok parts ->
  parts <> [] ->
  Forall (fun p => succeeds (get_partition_stats mc host p)) parts ->
  exists d, _get_host_part_dict mc host = Ok d /\
            length (hp_parts d) = length parts.
Proof.
  intros Hp Hne HF. unfold _get_host_part_dict. rewrite Hp. simpl.
  destruct (part_loop_Ok mc host parts [] None HF)
    as (new & last_dict & Hloop & Hlen & Hlast).
  rewrite Hloop. simpl. destruct (Hlast Hne) as [d ->].
  eexists. split; [reflexivity|]. exact Hlen.
Qed.

(** ** The fleet *)

(** C3, as the code has it: the loop over the hosts has no per-host
    isolation.  If the dictionaries of some host of the fleet cannot be
    built, the whole aggregation raises and returns no entry for any host;
    if they can be built for every host, the result has exactly one fully
    populated entry per host identifier, in the order of the sorted keys. *)
Theorem C3_fleet_failure_aborts mc (host_list : gmap string Z) :
  (forall k, is_Some (host_list !! k) -> raises (host_entry mc k) ->
             raises (aggregate_hosts mc host_list)) /\
  ((forall k, is_Some (host_list !! k) -> succeeds (host_entry mc k)) ->
   exists hosts,
     aggregate_hosts mc host_list = Ok hosts /\
     length hosts = size host_list /\
     Forall2 (fun k d => host_entry mc k = Ok d)
             (sorted_keys host_list) hosts).
Proof.
  split.
  - intros k Hk Hraise. unfold aggregate_hosts.
    apply hosts_loop_raises with (k := k); [|exact Hraise].
    now apply list_elem_of_In, elem_of_sorted_keys.
  - intros Hall. unfold aggregate_hosts.
    destruct (hosts_loop_succeeds mc (sorted_keys host_list) [])
      as (new & Hloop & HF).
    { apply Forall_forall. intros k Hk. apply Hall.
      now apply elem_of_sorted_keys. }
    exists new. split; [exact Hloop|]. split; [|exact HF].
    rewrite <- (Forall2_length _ _ _ HF). apply length_sorted_keys.
Qed.

Lemma C3_fleet_failure_aborts_witness :
  raises (aggregate_hosts (table_client one_down) two_hosts).
Proof.
  apply (proj1 (C3_fleet_failure_aborts (table_client one_down) two_hosts)
           "10.0.0.9").
  - exists 1. vm_compute. reflexivity.
  - exists (ClientError "10.0.0.9"). vm_compute. reflexivity.
Defined.

(** The claim C3 as stated fails for the fleet {10.0.0.9, 10.0.0.2} when
    10.0.0.9 cannot be reached: the other host can be aggregated, but the
    aggregation raises and there is no result with two entries. *)
Lemma C3_counterexample :
  succeeds (host_entry (table_client one_down) "10.0.0.2") /\
  aggregate_hosts (table_client one_down) two_hosts
  = Raise (ClientError "10.0.0.9") /\
  ~ exists hosts,
      aggregate_hosts (table_client one_down) two_hosts = Ok hosts /\
      length hosts = 2%nat.
Proof.
  assert (H : aggregate_hosts (table_client one_down) two_hosts
              = Raise (ClientError "10.0.0.9"))
    by (vm_compute; reflexivity).
  split; [eexists; vm_compute; reflexivity|]. split; [exact H|].
  intros (hosts & Hok & _). rewrite H in Hok. discriminate.
Qed.



(** * Further properties of the views *)

(** ** The totals of the interface loop *)

Lemma net_loop_totals mc host iface ints : forall st st',
  net_loop mc host iface ints st = Ok st' ->
  exists stats,
    Forall2 (fun i s => get_interface_stats mc host i = Ok s) ints stats /\
    net_ret st' = net_ret st ++ selected_rows iface ints stats /\
    (tband st' == tband st + total_bandwidth stats)%Q /\
    (trx st' == trx st + qsum is_rx stats)%Q /\
    (ttx st' == ttx st + qsum is_tx stats)%Q /\
    (ints = [] -> st' = st) /\
    (ints <> [] -> tclass st' = tclass_of (tused st')).
Proof.
  induction ints as [|i ints IH]; simpl; intros st st' H.
  - inversion H; subst. exists []. split; [constructor|].
    rewrite app_nil_r. unfold total_bandwidth, qsum. simpl.
    rewrite !Qplus_0_r. repeat split; try reflexivity. congruence.
  - inv_bind H. apply net_body_Ok in Ha. destruct Ha as (s & Hs & _ & ->).
    apply IH in H.
    destruct H as (stats & HF & Hret & Hb & Hrx & Htx & Hnil & Hcons).
    simpl in Hret, Hb, Hrx, Htx.
    exists (s :: stats). split; [now constructor|].
    split; [rewrite Hret; simpl; now rewrite <- !app_assoc|].
    unfold total_bandwidth, qsum in *. simpl.
    split; [rewrite Hb; ring|]. split; [rewrite Hrx; ring|].
    split; [rewrite Htx; ring|]. split; [congruence|]. intros _.
    destruct ints as [|i' ints]; [|apply Hcons; congruence].
    rewrite (Hnil eq_refl). reflexivity.
Qed.

Lemma Forall2_stats_unique mc host ints : forall stats stats',
  Forall2 (fun i s => get_interface_stats mc host i = Ok s) ints stats ->
  Forall2 (fun i s => get_interface_stats mc host i = Ok s) ints stats' ->
  stats = stats'.
Proof.
  induction ints as [|i ints IH]; intros stats stats' H H';
    inversion H; inversion H'; subst; [reflexivity|].
  f_equal; [congruence | now apply IH].
Qed.

(** X1. When the aggregate row is requested (no filter, or ["All"]) and
    the aggregator returns, the row's bandwidth, rx and tx are the sums
    over all monitored interfaces of the host, whatever rows the filter
    kept. *)
Theorem net_total_row_sums mc host iface ints stats rows :
  get_monitored_interfaces mc host = Ok ints ->
  Forall2 (fun i s => get_interface_stats mc host i = Ok s) ints stats ->
  total_requested iface = true ->
  _get_host_net_dict mc host iface = Ok rows ->
  exists tot,
    total_row rows = Some tot /\
    (td_bandwidth tot == total_bandwidth stats)%Q /\
    (td_rx tot == qsum is_rx stats)%Q /\
    (td_tx tot == qsum is_tx stats)%Q.
Proof.
  intros Hints HF Hreq H. unfold _get_host_net_dict in H.
  rewrite Hints in H. simpl in H. inv_bind H. rewrite Hreq in H.
  inversion H; subst; clear H. apply net_loop_totals in Ha.
  destruct Ha as (stats' & HF' & _ & Hb & Hrx & Htx & _).
  rewrite (Forall2_stats_unique _ _ _ _ _ HF HF'). simpl in Hb, Hrx, Htx.
  eexists. split; [apply total_row_snoc|]. simpl.
  rewrite Hb, Hrx, Htx, !Qplus_0_l. repeat split; reflexivity.
Qed.

Lemma net_total_row_sums_witness :
  exists tot,
    total_row [IfaceRow (int_dict_of "eth0" (ifstat 100 50));
               IfaceRow (int_dict_of "eth1" (ifstat 50 80));
               TotalRow {| td_bandwidth := 150; td_tx := 0; td_rx := 0;
                           td_used := 60; td_class := "progress-success" |}]
    = Some tot /\
    (td_bandwidth tot == total_bandwidth [ifstat 100 50; ifstat 50 80])%Q /\
    (td_rx tot == qsum is_rx [ifstat 100 50; ifstat 50 80])%Q /\
    (td_tx tot == qsum is_tx [ifstat 100 50; ifstat 50 80])%Q.
Proof.
  apply (net_total_row_sums
           (table_client (idle [("eth0", ifstat 100 50);
                                ("eth1", ifstat 50 80)]))
           "10.0.0.2" None ["eth0"; "eth1"]).
  - reflexivity.
  - repeat constructor.
  - reflexivity.
  - reflexivity.
Defined.

(** ** The rows the filter keeps *)

Lemma selected_rows_no_filter ints : forall stats,
  selected_rows None ints stats
  = map IfaceRow (zip_with int_dict_of ints stats).
Proof.
  induction ints as [|i ints IH]; intros [|s stats]; simpl; try reflexivity.
  now rewrite IH.
Qed.

Lemma selected_rows_named mc host i ints stats :
  Forall2 (fun j s => get_interface_stats mc host j = Ok s) ints stats ->
  exists s_i : list interface_stats,
    selected_rows (Some i) ints stats = map (fun s => IfaceRow (int_dict_of i s)) s_i /\
    length s_i = count_occ string_dec ints i /\
    Forall (fun s => get_interface_stats mc host i = Ok s) s_i.
Proof.
  induction 1 as [|j s ints stats Hs _ (s_i & Hrows & Hlen & Hall)].
  - exists []. repeat split. constructor.
  - cbn [selected_rows iface_selected count_occ].
    destruct (String.eqb_spec i j) as [<-|Hne].
    + exists (s :: s_i). destruct (string_dec i i); [|contradiction].
      simpl. rewrite Hrows, Hlen. repeat split. now constructor.
    + exists s_i. destruct (string_dec j i); [congruence|].
      simpl. now rewrite Hrows.
Qed.

Lemma iface_rows_IfaceRow (l : list int_dict) :
  iface_rows (map IfaceRow l) = l.
Proof.
  unfold iface_rows. induction l as [|d l IH]; simpl; [reflexivity|].
  f_equal. exact IH.
Qed.

Lemma get_host_net_dict_no_filter mc host ints stats rows :
  get_monitored_interfaces mc host = Ok ints ->
  Forall2 (fun i s => get_interface_stats mc host i = Ok s) ints stats ->
  _get_host_net_dict mc host None = Ok rows ->
  exists tot,
    rows = map IfaceRow (zip_with int_dict_of ints stats) ++ [TotalRow tot].
Proof.
  intros Hints HF H. apply get_host_net_dict_rows in H.
  destruct H as (ints' & stats' & tot & Hints' & HF' & ->).
  assert (ints' = ints) by congruence. subst ints'.
  rewrite <- (Forall2_stats_unique _ _ _ _ _ HF HF').
  exists tot. cbn [total_requested]. now rewrite selected_rows_no_filter.
Qed.

(** X2. Without a filter the result is, in enumeration order, the row of
    every monitored interface built from that interface's statistics,
    followed by the aggregate row as the last element. *)
Theorem net_no_filter_rows mc host ints stats rows :
  get_monitored_interfaces mc host = Ok ints ->
  Forall2 (fun i s => get_interface_stats mc host i = Ok s) ints stats ->
  _get_host_net_dict mc host None = Ok rows ->
  exists tot,
    rows = map IfaceRow (zip_with int_dict_of ints stats) ++ [TotalRow tot] /\
    map id_name (iface_rows rows) = ints.
Proof.
  intros Hints HF H.
  destruct (get_host_net_dict_no_filter mc host ints stats rows Hints HF H)
    as (tot & ->).
  exists tot. split; [reflexivity|].
  rewrite iface_rows_app, iface_rows_IfaceRow. simpl. rewrite app_nil_r.
  apply zip_with_int_dict_names. symmetry. apply (Forall2_length _ _ _ HF).
Qed.

Lemma net_no_filter_rows_witness :
  exists tot,
    [IfaceRow (int_dict_of "eth0" (ifstat 100 50));
     TotalRow {| td_bandwidth := 100; td_tx := 0; td_rx := 0;
                 td_used := 50; td_class := "progress-success" |}]
    = map IfaceRow (zip_with int_dict_of ["eth0"] [ifstat 100 50])
      ++ [TotalRow tot] /\
    map id_name
      (iface_rows
         [IfaceRow (int_dict_of "eth0" (ifstat 100 50));
          TotalRow {| td_bandwidth := 100; td_tx := 0; td_rx := 0;
                      td_used := 50; td_class := "progress-success" |}])
    = ["eth0"].
Proof.
  apply (net_no_filter_rows
           (table_client (idle [("eth0", ifstat 100 50)])) "10.0.0.2").
  - reflexivity.
  - repeat constructor.
  - reflexivity.
Defined.

(** X3. With the filter set to an interface name other than ["All"], the
    result holds no aggregate row: it is exactly one row for every
    occurrence of that name in the enumeration, built from that interface's
    statistics.  A name that is not monitored gives the empty list, not an
    error. *)
Theorem net_named_filter_rows mc host i ints rows :
  i <> "All" ->
  get_monitored_interfaces mc host = Ok ints ->
  _get_host_net_dict mc host (Some i) = Ok rows ->
  (exists s_i,
     rows = map (fun s => IfaceRow (int_dict_of i s)) s_i /\
     Forall (fun s => get_interface_stats mc host i = Ok s) s_i) /\
  length rows = count_occ string_dec ints i /\
  (~ In i ints -> rows = []).
Proof.
  intros Hne Hints H. apply get_host_net_dict_rows in H.
  destruct H as (ints' & stats & tot & Hints' & HF & ->).
  rewrite Hints in Hints'. inversion Hints'; subst ints'; clear Hints'.
  cbn [total_requested]. destruct (String.eqb_spec i "All"); [contradiction|].
  rewrite app_nil_r.
  destruct (selected_rows_named mc host i ints stats HF)
    as (s_i & -> & Hlen & Hall).
  split; [now exists s_i|]. rewrite length_map, Hlen.
  split; [reflexivity|]. intros Hnot.
  apply (count_occ_not_In string_dec) in Hnot. rewrite Hnot in Hlen.
  now destruct s_i.
Qed.

Lemma net_named_filter_rows_witness :
  (exists s_i,
     [IfaceRow (int_dict_of "eth1" (ifstat 50 80))]
     = map (fun s => IfaceRow (int_dict_of "eth1" s)) s_i /\
     Forall (fun s =>
               get_interface_stats
                 (table_client (idle [("eth0", ifstat 100 50);
                                      ("eth1", ifstat 50 80)]))
                 "10.0.0.2" "eth1" = Ok s) s_i) /\
  length [IfaceRow (int_dict_of "eth1" (ifstat 50 80))]
  = count_occ string_dec ["eth0"; "eth1"] "eth1" /\
  (~ In "eth1" ["eth0"; "eth1"] ->
   [IfaceRow (int_dict_of "eth1" (ifstat 50 80))] = []).
Proof.
  apply (net_named_filter_rows
           (table_client (idle [("eth0", ifstat 100 50);
                                ("eth1", ifstat 50 80)])) "10.0.0.2").
  - discriminate.
  - reflexivity.
  - reflexivity.
Defined.

(** ** When the interface aggregator raises *)

Lemma net_loop_raises mc host iface i ints : forall st,
  In i ints ->
  raises (get_interface_stats mc host i) ->
  raises (net_loop mc host iface ints st).
Proof.
  induction ints as [|j ints IH]; simpl; intros st Hin Hi; [easy|].
  destruct (net_body mc host iface st j) as [st'|e] eqn:Hbody; simpl.
  - destruct Hin as [->|Hin]; [|now apply IH].
    apply net_body_Ok in Hbody. destruct Hbody as (s & Hs & _).
    destruct Hi as [e He]. congruence.
  - now exists e.
Qed.

(** X4. The statistics of every monitored interface are fetched before the
    filter is applied: if they cannot be fetched for one interface, the
    aggregator raises whatever the filter is, also when the filter names a
    different interface. *)
Theorem net_dict_raises_on_any_interface mc host iface ints i :
  get_monitored_interfaces mc host = Ok ints ->
  In i ints ->
  raises (get_interface_stats mc host i) ->
  raises (_get_host_net_dict mc host iface).
Proof.
  intros Hints Hin Hi. unfold _get_host_net_dict. rewrite Hints. simpl.
  destruct (net_loop_raises mc host iface i ints net_init Hin Hi) as [e ->].
  now exists e.
Qed.

Lemma net_dict_raises_on_any_interface_witness :
  raises (_get_host_net_dict
            {| get_overall_state := fun _ => Ok 1;
               get_errors := fun _ => Ok [];
               get_warnings := fun _ => Ok [];
               get_notices := fun _ => Ok [];
               get_cpu_load := fun _ => Ok 10%Q;
               get_cpu_cores := fun _ => Ok 4;
               get_cpu_speed := fun _ => Ok (2400 # 1);
               get_total_memory := fun _ => Ok 1024%Q;
               get_mem_usage := fun _ => Ok 20%Q;
               get_monitored_partitions := fun _ => Ok [];
               get_partition_stats := fun _ p => Raise (ClientError p);
               get_monitored_interfaces := fun _ => Ok ["eth0"; "eth1"];
               get_interface_stats := fun _ i =>
                 if String.eqb i "eth0" then Ok (ifstat 100 50)
                 else Raise (ClientError i) |}
            "10.0.0.2" (Some "eth0")).
Proof.
  eapply (net_dict_raises_on_any_interface _ "10.0.0.2" (Some "eth0")
            ["eth0"; "eth1"] "eth1").
  - reflexivity.
  - simpl. auto.
  - exists (ClientError "eth1"). reflexivity.
Defined.

(** X5. If the first monitored interface reports a bandwidth of zero, the
    division of line 126 raises [ZeroDivisionError], whatever the filter
    and whatever the other interfaces report. *)
Theorem net_dict_zero_bandwidth_raises mc host iface i ints s :
  get_monitored_interfaces mc host = Ok (i :: ints) ->
  get_interface_stats mc host i = Ok s ->
  (is_bandwidth s == 0)%Q ->
  _get_host_net_dict mc host iface = Raise ZeroDivisionError.
Proof.
  intros Hints Hs Hz. unfold _get_host_net_dict. rewrite Hints. simpl.
  rewrite (net_body_zero_bandwidth mc host iface net_init i s Hs).
  - reflexivity.
  - simpl. now rewrite Qplus_0_l.
Qed.

Lemma net_dict_zero_bandwidth_raises_witness :
  _get_host_net_dict
    (table_client (idle [("lo", ifstat 0 0); ("eth0", ifstat 100 50)]))
    "10.0.0.2" None
  = Raise ZeroDivisionError.
Proof.
  apply (net_dict_zero_bandwidth_raises _ "10.0.0.2" None "lo" ["eth0"]
           (ifstat 0 0)); reflexivity.
Defined.

Lemma net_loop_positive mc host iface ints stats :
  Forall2 (fun i s => get_interface_stats mc host i = Ok s) ints stats ->
  Forall (fun s => (0 < is_bandwidth s)%Q) stats ->
  forall st, (0 <= tband st)%Q ->
  succeeds (net_loop mc host iface ints st).
Proof.
  induction 1 as [|i s ints stats Hs _ IH]; intros Hpos st Hst; simpl.
  - now exists st.
  - inversion Hpos as [|? ? Hs_pos Hpos']; subst.
    assert (Hnz : Qeq_bool (tband st + is_bandwidth s) 0 = false).
    { apply not_true_iff_false. intros Hz. apply Qeq_bool_iff in Hz. lra. }
    pose proof (proj2 (net_body_Ok mc host iface st i _)
                  (ex_intro _ s (conj Hs (conj Hnz eq_refl)))) as Hbody.
    rewrite Hbody. simpl. apply IH; [exact Hpos'|]. simpl. lra.
Qed.

Lemma get_host_net_dict_succeeds mc host iface ints stats :
  get_monitored_interfaces mc host = Ok ints ->
  Forall2 (fun i s => get_interface_stats mc host i = Ok s) ints stats ->
  Forall (fun s => (0 < is_bandwidth s)%Q) stats ->
  succeeds (_get_host_net_dict mc host iface).
Proof.
  intros Hints HF Hpos. unfold _get_host_net_dict. rewrite Hints. simpl.
  destruct (net_loop_positive mc host iface ints stats HF Hpos net_init)
    as [st ->]; [simpl; lra|].
  simpl. now eexists.
Qed.

(** X6. If the interfaces of a host can be enumerated, the statistics of
    each can be fetched and every bandwidth is positive, the aggregator
    returns, whatever the filter. *)
Theorem net_dict_positive_bandwidth_returns mc host iface ints stats :
  get_monitored_interfaces mc host = Ok ints ->
  Forall2 (fun i s => get_interface_stats mc host i = Ok s) ints stats ->
  Forall (fun s => (0 < is_bandwidth s)%Q) stats ->
  succeeds (_get_host_net_dict mc host iface).
Proof. apply get_host_net_dict_succeeds. Qed.

Lemma net_dict_positive_bandwidth_returns_witness :
  succeeds (_get_host_net_dict
              (table_client (idle [("eth0", ifstat 100 50);
                                   ("eth1", ifstat 50 80)]))
              "10.0.0.2" (Some "eth1")).
Proof.
  apply (net_dict_positive_bandwidth_returns _ "10.0.0.2" (Some "eth1")
           ["eth0"; "eth1"] [ifstat 100 50; ifstat 50 80]).
  - reflexivity.
  - repeat constructor.
  - repeat constructor.
Defined.

(** ** The class of the aggregate row *)

Lemma tclass_of_classified (tused : Z) :
  classified (inject_Z tused) (tclass_of tused).
Proof.
  unfold classified, tclass_of.
  change 90%Q with (inject_Z 90). change 60%Q with (inject_Z 60).
  rewrite <- !Zlt_Qlt, <- !Zle_Qle.
  destruct (Z.gtb_spec tused 90); simpl.
  - repeat split; intros; try easy; lia.
  - destruct (Z.gtb_spec tused 60); simpl;
      repeat split; intros; try easy; lia.
Qed.

(** X7. For a host with at least one monitored interface, the aggregate
    row returned with no filter or with ["All"] carries the class that the
    three-way threshold rule gives to the row's own used%. *)
Theorem net_total_row_classified mc host iface ints rows :
  get_monitored_interfaces mc host = Ok ints ->
  ints <> [] ->
  total_requested iface = true ->
  _get_host_net_dict mc host iface = Ok rows ->
  exists tot,
    total_row rows = Some tot /\
    td_class tot = tclass_of (td_used tot) /\
    classified (inject_Z (td_used tot)) (td_class tot).
Proof.
  intros Hints Hne Hreq H. unfold _get_host_net_dict in H.
  rewrite Hints in H. simpl in H. inv_bind H. rewrite Hreq in H.
  inversion H; subst; clear H. apply net_loop_totals in Ha.
  destruct Ha as (_ & _ & _ & _ & _ & _ & _ & Hclass).
  eexists. split; [apply total_row_snoc|]. simpl.
  rewrite (Hclass Hne). split; [reflexivity|]. apply tclass_of_classified.
Qed.

Lemma net_total_row_classified_witness :
  exists tot,
    total_row [IfaceRow (int_dict_of "eth0" (ifstat 200 50));
               IfaceRow (int_dict_of "eth1" (ifstat 200 100));
               TotalRow {| td_bandwidth := 400; td_tx := 0; td_rx := 0;
                           td_used := 62; td_class := "progress-warning" |}]
    = Some tot /\
    td_class tot = tclass_of (td_used tot) /\
    classified (inject_Z (td_used tot)) (td_class tot).
Proof.
  apply (net_total_row_classified
           (table_client (idle [("eth0", ifstat 200 50);
                                ("eth1", ifstat 200 100)]))
           "10.0.0.2" None ["eth0"; "eth1"]).
  - reflexivity.
  - discriminate.
  - reflexivity.
  - reflexivity.
Defined.

(** ** The partition dictionary *)

Lemma part_loop_spec mc host parts stats :
  Forall2 (fun p s => get_partition_stats mc host p = Ok s) parts stats ->
  forall parts_ret part_dict,
    part_loop mc host parts parts_ret part_dict
    = Ok (parts_ret ++ zip_with part_entry_of parts stats,
          match last (zip_with part_entry_of parts stats) with
          | Some d => Some d
          | None => part_dict
          end).
Proof.
  induction 1 as [|p s parts stats Hs HF IH]; intros parts_ret part_dict.
  - simpl. now rewrite app_nil_r.
  - cbn [part_loop]. rewrite Hs. cbn [mbind result_bind].
    fold (part_entry_of p s). rewrite IH. cbn [zip_with].
    rewrite <- app_assoc. cbn [app]. f_equal. f_equal.
    destruct (zip_with part_entry_of parts stats) as [|d l] eqn:Hz;
      [reflexivity|].
    rewrite last_cons_cons.
    destruct (last (d :: l)) eqn:Hlast; [reflexivity|].
    apply last_None in Hlast. discriminate.
Qed.

(** X8. For a host with at least one monitored partition whose statistics
    can all be fetched, the collection returns; the key ['parts'] lists one
    entry per partition in enumeration order, and the keys ['name'],
    ['total'] and ['used'] of the returned dictionary are those of the last
    partition. *)
Theorem part_dict_is_last_partition mc host parts stats :
  get_monitored_partitions mc host = Ok parts ->
  Forall2 (fun p s => get_partition_stats mc host p = Ok s) parts stats ->
  parts <> [] ->
  exists d,
    _get_host_part_dict mc host = Ok d /\
    hp_parts d = zip_with part_entry_of parts stats /\
    map pe_name (hp_parts d) = parts /\
    last (hp_parts d)
    = Some {| pe_name := hp_name d; pe_total := hp_total d;
              pe_used := hp_used d |} /\
    last parts = Some (hp_name d).
Proof.
  intros Hparts HF Hne. unfold _get_host_part_dict. rewrite Hparts.
  cbn [mbind result_bind]. rewrite (part_loop_spec _ _ _ _ HF).
  cbn [mbind result_bind app].
  assert (Hnames : map pe_name (zip_with part_entry_of parts stats) = parts).
  { clear Hparts Hne. induction HF; simpl; [reflexivity|]. now f_equal. }
  destruct (last (zip_with part_entry_of parts stats)) as [d|] eqn:Hlast.
  - eexists. split; [reflexivity|]. cbn. split; [reflexivity|].
    split; [exact Hnames|]. split; [rewrite Hlast; now destruct d|].
    rewrite <- Hnames. change (map pe_name) with (fmap (M:=list) pe_name).
    now rewrite fmap_last, Hlast.
  - apply last_None in Hlast. rewrite Hlast in Hnames. simpl in Hnames.
    congruence.
Qed.

Lemma part_dict_is_last_partition_witness :
  exists d,
    _get_host_part_dict
      (table_client
         {| tc_state := 1; tc_cpu_load := 10; tc_mem_usage := 20;
            tc_total_mem := 1024;
            tc_partitions := [("/", {| ps_total := 100; ps_used := 40 |});
                              ("/var", {| ps_total := 50; ps_used := 5 |})];
            tc_interfaces := []; tc_down := [] |}) "10.0.0.2" = Ok d /\
    hp_parts d
    = zip_with part_entry_of ["/"; "/var"]
        [{| ps_total := 100; ps_used := 40 |};
         {| ps_total := 50; ps_used := 5 |}] /\
    map pe_name (hp_parts d) = ["/"; "/var"] /\
    last (hp_parts d)
    = Some {| pe_name := hp_name d; pe_total := hp_total d;
              pe_used := hp_used d |} /\
    last ["/"; "/var"] = Some (hp_name d).
Proof.
  apply part_dict_is_last_partition.
  - reflexivity.
  - repeat constructor.
  - discriminate.
Defined.

Lemma part_loop_raises mc host p parts : forall parts_ret part_dict,
  In p parts ->
  raises (get_partition_stats mc host p) ->
  raises (part_loop mc host parts parts_ret part_dict).
Proof.
  induction parts as [|q parts IH]; simpl; intros parts_ret part_dict Hin Hp;
    [easy|].
  destruct (get_partition_stats mc host q) as [s|e] eqn:Hq; simpl.
  - destruct Hin as [->|Hin]; [|now apply IH].
    destruct Hp as [e He]. congruence.
  - now exists e.
Qed.

(** X9. If the statistics of one monitored partition cannot be fetched,
    the partition collection raises: no partial list is returned. *)
Theorem part_dict_raises_on_any_partition mc host parts p :
  get_monitored_partitions mc host = Ok parts ->
  In p parts ->
  raises (get_partition_stats mc host p) ->
  raises (_get_host_part_dict mc host).
Proof.
  intros Hparts Hin Hp. unfold _get_host_part_dict. rewrite Hparts. simpl.
  destruct (part_loop_raises mc host p parts [] None Hin Hp) as [e ->].
  now exists e.
Qed.

Lemma part_dict_raises_on_any_partition_witness :
  raises (_get_host_part_dict
            {| get_overall_state := fun _ => Ok 1;
               get_errors := fun _ => Ok [];
               get_warnings := fun _ => Ok [];
               get_notices := fun _ => Ok [];
               get_cpu_load := fun _ => Ok 10%Q;
               get_cpu_cores := fun _ => Ok 4;
               get_cpu_speed := fun _ => Ok (2400 # 1);
               get_total_memory := fun _ => Ok 1024%Q;
               get_mem_usage := fun _ => Ok 20%Q;
               get_monitored_partitions := fun _ => Ok ["/"; "/var"];
               get_partition_stats := fun _ p =>
                 if String.eqb p "/"
                 then Ok {| ps_total := 100; ps_used := 40 |}
                 else Raise (ClientError p);
               get_monitored_interfaces := fun _ => Ok [];
               get_interface_stats := fun _ i => Raise (ClientError i) |}
            "10.0.0.2").
Proof.
  eapply (part_dict_raises_on_any_partition _ "10.0.0.2" ["/"; "/var"]
            "/var").
  - reflexivity.
  - simpl. auto.
  - exists (ClientError "/var"). reflexivity.
Defined.

(** ** One fleet entry *)

(** X10. The entry of a host is built exactly when each of the nine
    monitoring calls made for it returns; it then carries the host
    identifier as its name, the returned values unchanged, the used memory
    [(mem_usage / 100.0) * total_mem] and the three classes computed from
    the state, the CPU load and the memory usage. *)
Theorem host_entry_Ok_iff mc host d :
  host_entry mc host = Ok d <->
  exists st e w no load ncores speed total usage,
    get_overall_state mc host = Ok st /\
    get_errors mc host = Ok e /\
    get_warnings mc host = Ok w /\
    get_notices mc host = Ok no /\
    get_cpu_load mc host = Ok load /\
    get_cpu_cores mc host = Ok ncores /\
    get_cpu_speed mc host = Ok speed /\
    get_total_memory mc host = Ok total /\
    get_mem_usage mc host = Ok usage /\
    d = host_dict_of host st e w no load ncores speed total usage.
Proof.
  unfold host_entry, _get_host_dict, _get_host_cpu_dict, _get_host_mem_dict.
  split.
  - intros H.
    destruct (get_overall_state mc host) as [st|]; [|discriminate].
    destruct (get_errors mc host) as [e|]; [|discriminate].
    destruct (get_warnings mc host) as [w|]; [|discriminate].
    destruct (get_notices mc host) as [no|]; [|discriminate].
    destruct (get_cpu_load mc host) as [load|]; [|discriminate].
    destruct (get_cpu_cores mc host) as [ncores|]; [|discriminate].
    destruct (get_cpu_speed mc host) as [speed|]; [|discriminate].
    destruct (get_total_memory mc host) as [total|]; [|discriminate].
    destruct (get_mem_usage mc host) as [usage|]; [|discriminate].
    simpl in H. inversion H; subst; clear H.
    exists st, e, w, no, load, ncores, speed, total, usage.
    repeat split.
  - intros (st & e & w & no & load & ncores & speed & total & usage
            & -> & -> & -> & -> & -> & -> & -> & -> & -> & ->).
    reflexivity.
Qed.

Lemma host_entry_Ok_iff_witness :
  exists st e w no load ncores speed total usage,
    get_overall_state (table_client (idle [])) "10.0.0.2" = Ok st /\
    get_errors (table_client (idle [])) "10.0.0.2" = Ok e /\
    get_warnings (table_client (idle [])) "10.0.0.2" = Ok w /\
    get_notices (table_client (idle [])) "10.0.0.2" = Ok no /\
    get_cpu_load (table_client (idle [])) "10.0.0.2" = Ok load /\
    get_cpu_cores (table_client (idle [])) "10.0.0.2" = Ok ncores /\
    get_cpu_speed (table_client (idle [])) "10.0.0.2" = Ok speed /\
    get_total_memory (table_client (idle [])) "10.0.0.2" = Ok total /\
    get_mem_usage (table_client (idle [])) "10.0.0.2" = Ok usage /\
    host_dict_of "10.0.0.2" 1 [] [] [] 10 4 (2400 # 1) 1024 20
    = host_dict_of "10.0.0.2" st e w no load ncores speed total usage.
Proof.
  apply (proj1 (host_entry_Ok_iff (table_client (idle [])) "10.0.0.2"
                  (host_dict_of "10.0.0.2" 1 [] [] [] 10 4 (2400 # 1)
                     1024 20))).
  reflexivity.
Defined.

(** ** Which exception the fleet reports *)

Lemma str_le_ne_ltb (a b : string) :
  str_le a b -> a <> b -> String.ltb a b = true.
Proof.
  unfold str_le, String.leb, String.ltb. intros Hle Hne.
  destruct (String.compare a b) eqn:Hc; try easy.
  apply String.compare_eq_iff in Hc. contradiction.
Qed.

Lemma sorted_keys_split (m : gmap string Z) (k : string) :
  is_Some (m !! k) ->
  exists before after,
    sorted_keys m = before ++ k :: after /\
    Forall (fun h => is_Some (m !! h) /\ String.ltb h k = true) before.
Proof.
  intros Hk. apply elem_of_sorted_keys, list_elem_of_split in Hk.
  destruct Hk as (before & after & Hsplit).
  exists before, after. split; [exact Hsplit|].
  pose proof (sorted_keys_sorted m) as Hsorted.
  pose proof (sorted_keys_NoDup m) as Hnodup.
  rewrite Hsplit in Hsorted, Hnodup.
  apply Forall_forall. intros h Hh.
  split.
  - apply elem_of_sorted_keys. rewrite Hsplit. apply elem_of_app. now left.
  - apply str_le_ne_ltb.
    + eapply (StronglySorted_app_1_elem_of _ before (k :: after));
        [exact Hsorted | exact Hh | apply list_elem_of_here].
    + intros ->. apply NoDup_app in Hnodup.
      destruct Hnodup as (_ & Hdisj & _).
      apply (Hdisj k Hh). apply list_elem_of_here.
Qed.

(** X11. When the dictionaries of several hosts cannot be built, the
    exception the fleet loop raises is the one of the failing host whose
    identifier is smallest in lexicographic order. *)
Theorem aggregate_hosts_first_failure mc (host_list : gmap string Z) k e :
  is_Some (host_list !! k) ->
  host_entry mc k = Raise e ->
  (forall h, is_Some (host_list !! h) -> String.ltb h k = true ->
             succeeds (host_entry mc h)) ->
  aggregate_hosts mc host_list = Raise e.
Proof.
  intros Hk He Hbefore. unfold aggregate_hosts.
  destruct (sorted_keys_split host_list k Hk)
    as (before & after & -> & Hall).
  apply hosts_loop_Raise; [|exact He].
  eapply Forall_impl; [exact Hall|]. intros h [Hh Hlt]. now apply Hbefore.
Qed.

Lemma aggregate_hosts_first_failure_witness :
  aggregate_hosts (table_client one_down) two_hosts
  = Raise (ClientError "10.0.0.9").
Proof.
  apply (aggregate_hosts_first_failure (table_client one_down) two_hosts
           "10.0.0.9").
  - exists 1. vm_compute. reflexivity.
  - vm_compute. reflexivity.
  - intros h [v Hv] Hlt. unfold two_hosts in Hv.
    apply lookup_insert_Some in Hv. destruct Hv as [[<- _]|[_ Hv]].
    + eexists. vm_compute. reflexivity.
    + apply lookup_insert_Some in Hv. destruct Hv as [[<- _]|[_ Hv]].
      * discriminate Hlt.
      * rewrite lookup_empty in Hv. discriminate.
Defined.

(** ** The detail view *)

Lemma bind_Return {A B} (m : outcome A) (f : A -> outcome B) (b : B) :
  m ≫= f = Return b <-> exists a, m = Return a /\ f a = Return b.
Proof.
  destruct m as [a|e]; simpl; split.
  - intros H. now exists a.
  - intros (a' & Ha & Hf). now inversion Ha; subst.
  - discriminate.
  - intros (a' & Ha & _). discriminate.
Qed.

Lemma call_Return {A} (r : result A) (a : A) : call r = Return a <-> r = Ok a.
Proof. destruct r; simpl; split; congruence. Qed.

Lemma dict_get_Return {V} (d : gmap string V) (key : string) (v : V) :
  dict_get d key = Return v <-> d !! key = Some v.
Proof. unfold dict_get. destruct (d !! key); split; congruence. Qed.

(** Inverts a hypothesis [m ≫= f = Return b] into its two halves. *)
Ltac inv_ret H :=
  let a := fresh "a" in
  let Ha := fresh "Ha" in
  apply bind_Return in H; destruct H as (a & Ha & H); simpl in H.

Lemma py_pop_snoc {A} (l : list A) (x : A) :
  py_pop (l ++ [x]) = Return (l, x).
Proof. unfold py_pop. now rewrite last_snoc, removelast_last. Qed.

(** X12. For a host without monitored partitions the detail view raises
    the unbound-variable error of the partition collection, although every
    call made up to that point returns: the detail page of such a host
    cannot be built. *)
Theorem detail_view_no_partitions_raises {G} mc (mtc : MetricsClient G)
    (kwargs : gmap string string) host :
  kwargs !! "host_id" = Some host ->
  succeeds (_get_host_dict mc host) ->
  succeeds (_get_host_cpu_dict mc host) ->
  succeeds (_get_host_mem_dict mc host) ->
  get_monitored_partitions mc host = Ok [] ->
  HostDetailView_get_data mc mtc kwargs
  = Throw (Exn (UnboundLocalError "part_dict")).
Proof.
  intros Hk [g Hg] [c Hc] [m Hm] Hparts.
  unfold HostDetailView_get_data, dict_get. rewrite Hk. simpl.
  rewrite Hg. simpl. rewrite Hc. simpl. rewrite Hm. simpl.
  unfold _get_host_part_dict. now rewrite Hparts.
Qed.

Lemma detail_view_no_partitions_raises_witness :
  HostDetailView_get_data (table_client (idle [])) (const_metrics "graph")
    {["host_id" := "10.0.0.2"]}
  = Throw (Exn (UnboundLocalError "part_dict")).
Proof.
  apply (detail_view_no_partitions_raises _ _ _ "10.0.0.2").
  - reflexivity.
  - eexists. reflexivity.
  - eexists. reflexivity.
  - eexists. reflexivity.
  - reflexivity.
Defined.

(** X13. When the detail view returns, ['net'] holds the row of every
    monitored interface in enumeration order and nothing else, and
    ['net_total'] is the aggregate row that [pop()] removed from the end of
    the list. *)
Theorem detail_view_splits_net {G} mc (mtc : MetricsClient G)
    (kwargs : gmap string string) d :
  HostDetailView_get_data mc mtc kwargs = Return d ->
  exists host ints stats tot,
    kwargs !! "host_id" = Some host /\
    hg_name (dt_host d) = host /\
    get_monitored_interfaces mc host = Ok ints /\
    Forall2 (fun i s => get_interface_stats mc host i = Ok s) ints stats /\
    dt_net d = map IfaceRow (zip_with int_dict_of ints stats) /\
    dt_net_total d = TotalRow tot /\
    _get_host_net_dict mc host None = Ok (dt_net d ++ [dt_net_total d]).
Proof.
  unfold HostDetailView_get_data. intros H.
  inv_ret H. apply dict_get_Return in Ha.
  inv_ret H. apply call_Return in Ha0.
  inv_ret H. inv_ret H. inv_ret H. inv_ret H. apply call_Return in Ha4.
  pose proof Ha4 as Hrows. apply get_host_net_dict_rows in Hrows.
  destruct Hrows as (ints & stats & tot & Hints & HF & ->).
  cbn [total_requested] in H, Ha4. rewrite selected_rows_no_filter in H, Ha4.
  rewrite py_pop_snoc in H. simpl in H.
  inv_ret H. inv_ret H. inv_ret H. inversion H; subst; clear H. simpl.
  exists a, ints, stats, tot. repeat split; trivial.
  now apply get_host_dict_inv in Ha0.
Qed.

Lemma detail_view_splits_net_witness :
  exists d,
    HostDetailView_get_data (table_client detail_host)
      (const_metrics "graph") {["host_id" := "10.0.0.2"]} = Return d /\
    exists host ints stats tot,
      ({["host_id" := "10.0.0.2"]} : gmap string string) !! "host_id"
      = Some host /\
      hg_name (dt_host d) = host /\
      get_monitored_interfaces (table_client detail_host) host = Ok ints /\
      Forall2 (fun i s =>
                 get_interface_stats (table_client detail_host) host i
                 = Ok s) ints stats /\
      dt_net d = map IfaceRow (zip_with int_dict_of ints stats) /\
      dt_net_total d = TotalRow tot /\
      _get_host_net_dict (table_client detail_host) host None
      = Ok (dt_net d ++ [dt_net_total d]).
Proof.
  eexists. split; [vm_compute; reflexivity|].
  apply (detail_view_splits_net _ (const_metrics "graph")
           {["host_id" := "10.0.0.2"]}).
  vm_compute. reflexivity.
Defined.

(** X14. The [pop()] of the detail view never raises [IndexError]: the
    list it is applied to always ends with the aggregate row. *)
Theorem detail_view_never_IndexError {G} mc (mtc : MetricsClient G)
    (kwargs : gmap string string) :
  HostDetailView_get_data mc mtc kwargs <> Throw IndexError.
Proof.
  unfold HostDetailView_get_data.
  destruct (dict_get kwargs "host_id") as [host|e] eqn:Hk; simpl;
    [|unfold dict_get in Hk; destruct (kwargs !! "host_id"); congruence].
  destruct (_get_host_dict mc host); simpl; [|discriminate].
  destruct (_get_host_cpu_dict mc host); simpl; [|discriminate].
  destruct (_get_host_mem_dict mc host); simpl; [|discriminate].
  destruct (_get_host_part_dict mc host); simpl; [|discriminate].
  destruct (_get_host_net_dict mc host None) as [rows|e] eqn:Hrows; simpl;
    [|discriminate].
  apply get_host_net_dict_rows in Hrows.
  destruct Hrows as (ints & stats & tot & _ & _ & ->).
  cbn [total_requested]. rewrite py_pop_snoc. simpl.
  destruct (get_cpu_graph mtc host None); simpl; [|discriminate].
  destruct (get_mem_graph mtc host); simpl; [|discriminate].
  destruct (get_network_graph mtc host None); simpl; discriminate.
Qed.

(** ** The stats views *)

(** X15. A request that is not an XMLHttpRequest gets the error message
    from [NetStatsView.get] and [DiskStatsView.get] whatever the monitoring
    and metrics clients would answer: neither client is consulted. *)
Theorem stats_views_reject_non_ajax {G} mc (mtc : MetricsClient G)
    (kwargs : gmap string string) host i :
  kwargs !! "host_id" = Some host ->
  kwargs !! "int_id" = Some i ->
  NetStatsView_get mc mtc false kwargs
  = Return {| rs_content := ErrorMessage "Not a valid XMLHttpRequest";
              rs_json := true; rs_mimetype := "application/json" |} /\
  DiskStatsView_get mc mtc false kwargs
  = Return {| rs_content := ErrorMessage "Not a valid XMLHttpRequest";
              rs_json := false; rs_mimetype := "application/text" |}.
Proof.
  intros Hh Hi. unfold NetStatsView_get, DiskStatsView_get, dict_get.
  rewrite Hh, Hi. split; reflexivity.
Qed.

Lemma stats_views_reject_non_ajax_witness :
  NetStatsView_get (table_client one_down) (no_metrics string) false
    (stats_kwargs "10.0.0.9" "eth0")
  = Return {| rs_content := ErrorMessage "Not a valid XMLHttpRequest";
              rs_json := true; rs_mimetype := "application/json" |} /\
  DiskStatsView_get (table_client one_down) (no_metrics string) false
    (stats_kwargs "10.0.0.9" "eth0")
  = Return {| rs_content := ErrorMessage "Not a valid XMLHttpRequest";
              rs_json := false; rs_mimetype := "application/text" |}.
Proof.
  apply (stats_views_reject_non_ajax _ _ _ "10.0.0.9" "eth0");
    vm_compute; reflexivity.
Defined.

(** X16. For an XMLHttpRequest with [int_id = 'all'], on a host whose
    interfaces all report a positive bandwidth, [NetStatsView.get] returns
    the graph of all interfaces and the statistics of every monitored
    interface in enumeration order followed by the aggregate row. *)
Theorem net_stats_view_all {G} mc (mtc : MetricsClient G)
    (kwargs : gmap string string) host ints stats g :
  kwargs !! "host_id" = Some host ->
  kwargs !! "int_id" = Some "all" ->
  get_network_graph mtc host None = Ok g ->
  get_monitored_interfaces mc host = Ok ints ->
  Forall2 (fun i s => get_interface_stats mc host i = Ok s) ints stats ->
  Forall (fun s => (0 < is_bandwidth s)%Q) stats ->
  exists tot,
    NetStatsView_get mc mtc true kwargs
    = Return {| rs_content :=
                  StatsMessage g
                    (map IfaceRow (zip_with int_dict_of ints stats)
                     ++ [TotalRow tot]);
                rs_json := true; rs_mimetype := "application/json" |}.
Proof.
  intros Hh Hi Hg Hints HF Hpos.
  destruct (get_host_net_dict_succeeds mc host None ints stats
              Hints HF Hpos) as [rows Hrows].
  destruct (get_host_net_dict_no_filter mc host ints stats rows Hints HF Hrows)
    as (tot & ->).
  exists tot. unfold NetStatsView_get, net_stats_message, dict_get.
  rewrite Hh, Hi. simpl. rewrite Hg. simpl. now rewrite Hrows.
Qed.

Lemma net_stats_view_all_witness :
  exists tot,
    NetStatsView_get (table_client detail_host) (const_metrics "graph") true
      (stats_kwargs "10.0.0.2" "all")
    = Return {| rs_content :=
                  StatsMessage "graph"
                    (map IfaceRow
                       (zip_with int_dict_of ["eth0"] [ifstat 100 50])
                     ++ [TotalRow tot]);
                rs_json := true; rs_mimetype := "application/json" |}.
Proof.
  apply (net_stats_view_all _ _ _ "10.0.0.2").
  - vm_compute. reflexivity.
  - vm_compute. reflexivity.
  - reflexivity.
  - reflexivity.
  - repeat constructor.
  - repeat constructor.
Defined.

(** X17. For an XMLHttpRequest that names an interface other than ['all']
    and ['All'], on a host whose interfaces all report a positive
    bandwidth, [NetStatsView.get] returns the graph of that interface and
    one row per occurrence of the name among the monitored interfaces,
    without an aggregate row. *)
Theorem net_stats_view_named {G} mc (mtc : MetricsClient G)
    (kwargs : gmap string string) host i ints stats g :
  kwargs !! "host_id" = Some host ->
  kwargs !! "int_id" = Some i ->
  i <> "all" -> i <> "All" ->
  get_network_graph mtc host (Some i) = Ok g ->
  get_monitored_interfaces mc host = Ok ints ->
  Forall2 (fun j s => get_interface_stats mc host j = Ok s) ints stats ->
  Forall (fun s => (0 < is_bandwidth s)%Q) stats ->
  exists s_i,
    NetStatsView_get mc mtc true kwargs
    = Return {| rs_content :=
                  StatsMessage g
                    (map (fun s => IfaceRow (int_dict_of i s)) s_i);
                rs_json := true; rs_mimetype := "application/json" |} /\
    length s_i = count_occ string_dec ints i /\
    Forall (fun s => get_interface_stats mc host i = Ok s) s_i.
Proof.
  intros Hh Hi Hall HAll Hg Hints HF Hpos.
  destruct (get_host_net_dict_succeeds mc host (Some i) ints
              stats Hints HF Hpos) as [rows Hrows].
  pose proof Hrows as Hrows'. apply get_host_net_dict_rows in Hrows'.
  destruct Hrows' as (ints' & stats' & tot & Hints' & HF' & Heq).
  assert (ints' = ints) by congruence. subst ints'.
  cbn [total_requested] in Heq.
  destruct (String.eqb_spec i "All"); [contradiction|].
  rewrite app_nil_r in Heq.
  destruct (selected_rows_named mc host i ints stats' HF')
    as (s_i & Hsel & Hlen & Hs_i).
  exists s_i. split; [|split; assumption].
  unfold NetStatsView_get, net_stats_message, dict_get.
  rewrite Hh, Hi. simpl.
  destruct (String.eqb_spec i "all"); [contradiction|].
  rewrite Hg. simpl. rewrite Hrows. simpl. now rewrite Heq, Hsel.
Qed.

Lemma net_stats_view_named_witness :
  exists s_i,
    NetStatsView_get (table_client detail_host) (const_metrics "graph") true
      (stats_kwargs "10.0.0.2" "eth0")
    = Return {| rs_content :=
                  StatsMessage "graph"
                    (map (fun s => IfaceRow (int_dict_of "eth0" s)) s_i);
                rs_json := true; rs_mimetype := "application/json" |} /\
    length s_i = count_occ string_dec ["eth0"] "eth0" /\
    Forall (fun s =>
              get_interface_stats (table_client detail_host) "10.0.0.2"
                "eth0" = Ok s) s_i.
Proof.
  apply (net_stats_view_named _ _ _ "10.0.0.2" "eth0" ["eth0"]
           [ifstat 100 50]).
  - vm_compute. reflexivity.
  - vm_compute. reflexivity.
  - discriminate.
  - discriminate.
  - reflexivity.
  - reflexivity.
  - repeat constructor.
  - repeat constructor.
Defined.

(** X18. [DiskStatsView.get] serves network statistics: for every request
    its response carries the message [NetStatsView.get] builds for the
    same request, without the JSON encoding and with the text mimetype;
    it raises when, and as, [NetStatsView.get] does. *)
Theorem disk_stats_view_serves_net_stats {G} mc (mtc : MetricsClient G)
    (is_ajax : bool) (kwargs : gmap string string) :
  DiskStatsView_get mc mtc is_ajax kwargs
  = (r ← NetStatsView_get mc mtc is_ajax kwargs;
     mret {| rs_content := rs_content r; rs_json := false;
             rs_mimetype := "application/text" |}).
Proof.
  unfold DiskStatsView_get, NetStatsView_get.
  destruct (dict_get kwargs "host_id") as [host|]; simpl; [|reflexivity].
  destruct (dict_get kwargs "int_id") as [i|]; simpl; [|reflexivity].
  now destruct (net_stats_message mc mtc is_ajax host _).
Qed.

(** X19. [CpuStatsView.get] and [MemStatsView.get] never return a
    response: a request that lacks one of their two URL arguments raises
    [KeyError], every other request raises the unbound-variable error for
    [interface]. *)
Theorem cpu_mem_stats_views_always_raise {G} mc (mtc : MetricsClient G)
    (is_ajax : bool) (kwargs : gmap string string) :
  CpuStatsView_get mc mtc is_ajax kwargs
  = Throw (match kwargs !! "host_id", kwargs !! "cpu_id" with
           | None, _ => KeyError "host_id"
           | Some _, None => KeyError "cpu_id"
           | Some _, Some _ => Exn (UnboundLocalError "interface")
           end) /\
  MemStatsView_get mc mtc is_ajax kwargs
  = Throw (match kwargs !! "host_id", kwargs !! "mem_id" with
           | None, _ => KeyError "host_id"
           | Some _, None => KeyError "mem_id"
           | Some _, Some _ => Exn (UnboundLocalError "interface")
           end).
Proof.
  unfold CpuStatsView_get, MemStatsView_get, dict_get.
  destruct (kwargs !! "host_id"), (kwargs !! "cpu_id"),
    (kwargs !! "mem_id"); split; reflexivity.
Qed.

(** * Properties of the dictionary helpers of [quantum.py] *)

Lemma length_substring_le (m : nat) : forall s,
  (String.length (substring 0 m s) <= m)%nat.
Proof.
  induction m as [|m IH]; intros [|c s]; simpl; try lia.
  specialize (IH s). lia.
Qed.

Lemma length_string_app (a b : string) :
  String.length (a ++ b)%string = (String.length a + String.length b)%nat.
Proof. induction a as [|c a IH]; simpl; [reflexivity|]. now rewrite IH. Qed.

Lemma py_slice_to_length (s : string) (n : Z) :
  0 <= n -> (String.length (py_slice_to s n) <= Z.to_nat n)%nat.
Proof.
  intros Hn. unfold py_slice_to. destruct (Z.leb_spec 0 n); [|lia].
  apply length_substring_le.
Qed.

Lemma set_id_as_name_cases (d : gmap string string) (n : Z) :
  (forall m, set_id_as_name_if_empty d m = d) \/
  (exists id',
     d !! "name" = Some "" /\
     set_id_as_name_if_empty d n
     = <["name" := ("(" ++ id' ++ ")")%string]> d).
Proof.
  unfold set_id_as_name_if_empty.
  destruct (d !! "name") as [nm|] eqn:Hname; [|now left].
  destruct (String.eqb_spec nm "") as [->|Hne]; [|now left].
  destruct (d !! "id") as [id|]; [|now left].
  right. eexists. split; reflexivity.
Qed.

(** X20. [set_id_as_name_if_empty] changes no key other than ['name'],
    adds and removes no key, and is idempotent: a second call, with any
    [length], changes nothing. *)
Theorem set_id_as_name_idempotent (d : gmap string string) (n m : Z) :
  set_id_as_name_if_empty (set_id_as_name_if_empty d n) m
  = set_id_as_name_if_empty d n /\
  (forall k, k <> "name" -> set_id_as_name_if_empty d n !! k = d !! k) /\
  (forall k, is_Some (set_id_as_name_if_empty d n !! k) <-> is_Some (d !! k)).
Proof.
  destruct (set_id_as_name_cases d n) as [Hsame|(id' & Hname & Heq)].
  - rewrite !Hsame. repeat split; auto.
  - rewrite Heq. split; [|split].
    + unfold set_id_as_name_if_empty. now rewrite lookup_insert_eq.
    + intros k Hk. now rewrite lookup_insert_ne.
    + intros k. destruct (decide (k = "name")) as [->|Hk].
      * rewrite lookup_insert_eq, Hname. split; eauto.
      * now rewrite lookup_insert_ne.
Qed.

(** X21. On a dictionary that has the keys ['name'] and ['id'], the name
    after [set_id_as_name_if_empty] is never empty: a non-empty name is
    kept, an empty one becomes the id, cut to [length] characters when
    [length] is not zero, between parentheses; for a positive [length] the
    new name has at most [length + 2] characters. *)
Theorem set_id_as_name_nonempty (d : gmap string string) (n : Z) nm id :
  d !! "name" = Some nm ->
  d !! "id" = Some id ->
  exists nm',
    set_id_as_name_if_empty d n !! "name" = Some nm' /\
    nm' <> "" /\
    (nm <> "" -> nm' = nm) /\
    (nm = "" ->
     nm' = ("(" ++ (if (n =? 0)%Z then id else py_slice_to id n)
            ++ ")")%string /\
     (0 < n -> (String.length nm' <= Z.to_nat n + 2)%nat)).
Proof.
  intros Hname Hid. unfold set_id_as_name_if_empty. rewrite Hname.
  destruct (String.eqb_spec nm "") as [->|Hne].
  - rewrite Hid, lookup_insert_eq. eexists. split; [reflexivity|].
    split; [discriminate|]. split; [congruence|]. intros _.
    split; [reflexivity|]. intros Hn.
    destruct (Z.eqb_spec n 0); [lia|].
    rewrite !length_string_app. cbn [String.length].
    pose proof (py_slice_to_length id n). lia.
  - exists nm. rewrite Hname. split; [reflexivity|]. split; [exact Hne|].
    split; [reflexivity|]. intros Hempty. contradiction.
Qed.

Lemma set_id_as_name_nonempty_witness :
  exists nm',
    set_id_as_name_if_empty unnamed_network 8 !! "name" = Some nm' /\
    nm' <> "" /\
    ("" <> "" -> nm' = "") /\
    ("" = "" ->
     nm' = ("(" ++ (if (8 =? 0)%Z
                    then "3f2a9c1e-77b0-4d5e-9a10-0c6f5d2e8b41"
                    else py_slice_to
                           "3f2a9c1e-77b0-4d5e-9a10-0c6f5d2e8b41" 8)
            ++ ")")%string /\
     (0 < 8 -> (String.length nm' <= Z.to_nat 8 + 2)%nat)).
Proof.
  apply (set_id_as_name_nonempty unnamed_network 8 ""
           "3f2a9c1e-77b0-4d5e-9a10-0c6f5d2e8b41");
    vm_compute; reflexivity.
Defined.

(** X22. [get_ipver_str] returns ["IPv4"] exactly for version 4, ["IPv6"]
    exactly for version 6, and the empty string for every other version
    number. *)
Theorem get_ipver_str_cases (v : Z) :
  (get_ipver_str v = "IPv4" <-> v = 4) /\
  (get_ipver_str v = "IPv6" <-> v = 6) /\
  (get_ipver_str v = "" <-> v <> 4 /\ v <> 6).
Proof.
  unfold get_ipver_str, IP_VERSION_DICT.
  destruct (decide (v = 6)) as [->|H6].
  - rewrite lookup_insert_eq. simpl. repeat split; intros; try easy; lia.
  - rewrite lookup_insert_ne by congruence.
    destruct (decide (v = 4)) as [->|H4].
    + rewrite lookup_insert_eq. simpl. repeat split; intros; try easy; lia.
    + rewrite lookup_insert_ne by congruence. rewrite lookup_empty. simpl.
      repeat split; intros; try easy.
Qed.

(** ** When the detail view returns *)

Lemma host_entry_succeeds_dicts mc host :
  succeeds (host_entry mc host) ->
  succeeds (_get_host_dict mc host) /\
  succeeds (_get_host_cpu_dict mc host) /\
  succeeds (_get_host_mem_dict mc host).
Proof.
  intros [d H]. unfold host_entry in H.
  inv_bind H. inv_bind H. inv_bind H.
  repeat split; eexists; eassumption.
Qed.

(** X23. The detail view returns for a host whose nine summary calls
    return, which has at least one monitored partition, whose partition
    and interface statistics can all be fetched, whose interfaces all
    report a positive bandwidth, and whose three graphs can be fetched; the
    result carries those graphs, one partition entry per partition and one
    network row per interface. *)
Theorem detail_view_returns {G} mc (mtc : MetricsClient G)
    (kwargs : gmap string string) host parts ints stats gc gm gn :
  kwargs !! "host_id" = Some host ->
  succeeds (host_entry mc host) ->
  get_monitored_partitions mc host = Ok parts ->
  parts <> [] ->
  Forall (fun p => succeeds (get_partition_stats mc host p)) parts ->
  get_monitored_interfaces mc host = Ok ints ->
  Forall2 (fun i s => get_interface_stats mc host i = Ok s) ints stats ->
  Forall (fun s => (0 < is_bandwidth s)%Q) stats ->
  get_cpu_graph mtc host None = Ok gc ->
  get_mem_graph mtc host = Ok gm ->
  get_network_graph mtc host None = Ok gn ->
  exists d,
    HostDetailView_get_data mc mtc kwargs = Return d /\
    hg_name (dt_host d) = host /\
    length (hp_parts (dt_part d)) = length parts /\
    dt_net d = map IfaceRow (zip_with int_dict_of ints stats) /\
    dt_cpu_graph d = gc /\ dt_mem_graph d = gm /\ dt_net_graph d = gn.
Proof.
  intros Hk Hentry Hparts Hne Hstats Hints HF Hpos Hgc Hgm Hgn.
  destruct (host_entry_succeeds_dicts mc host Hentry)
    as ([g Hg] & [c Hc] & [m Hm]).
  destruct (get_host_part_dict_nonempty mc host parts Hparts Hne Hstats)
    as (pd & Hpd & Hlen).
  destruct (get_host_net_dict_succeeds mc host None ints stats Hints HF Hpos)
    as [rows Hrows].
  destruct (get_host_net_dict_no_filter mc host ints stats rows Hints HF Hrows)
    as (tot & ->).
  unfold HostDetailView_get_data, dict_get. rewrite Hk. simpl.
  rewrite Hg. simpl. rewrite Hc. simpl. rewrite Hm. simpl.
  rewrite Hpd. simpl. rewrite Hrows. simpl. rewrite py_pop_snoc. simpl.
  rewrite Hgc. simpl. rewrite Hgm. simpl. rewrite Hgn. simpl.
  eexists. split; [reflexivity|]. simpl.
  apply get_host_dict_inv in Hg. destruct Hg as (Hname & _).
  repeat split; trivial.
Qed.

Lemma detail_view_returns_witness :
  exists d,
    HostDetailView_get_data (table_client detail_host)
      (const_metrics "graph") {["host_id" := "10.0.0.2"]} = Return d /\
    hg_name (dt_host d) = "10.0.0.2" /\
    length (hp_parts (dt_part d)) = length ["/"] /\
    dt_net d = map IfaceRow (zip_with int_dict_of ["eth0"] [ifstat 100 50]) /\
    dt_cpu_graph d = "graph" /\ dt_mem_graph d = "graph" /\
    dt_net_graph d = "graph".
Proof.
  apply (detail_view_returns (table_client detail_host)
           (const_metrics "graph") {["host_id" := "10.0.0.2"]} "10.0.0.2"
           ["/"] ["eth0"] [ifstat 100 50] "graph" "graph" "graph").
  - reflexivity.
  - eexists. reflexivity.
  - reflexivity.
  - discriminate.
  - repeat constructor. eexists. reflexivity.
  - reflexivity.
  - repeat constructor.
  - repeat constructor.
  - reflexivity.
  - reflexivity.
  - reflexivity.
Defined.
